(** * articular: JSON-LD document assembly ([articular/document.py])

    A shallow embedding of the [Document] class: the context
    de-duplication ([Document._deduplicate_context]), the document
    assembly ([Document.__init__]) and the framing property
    ([Document.framed]), together with the properties stated for them.

    Modelling conventions.
    - Python values that reach [Document] are JSON values; they are the
      type [json].  Numbers are Python [int]s ([Z]); floats are outside the
      model.  A Python [dict] with string keys that is part of a JSON value
      is an association list in insertion order (key order is observable in
      the serialised document).
    - The content tree comes out of a parser and is a tree: no two positions
      hold the same object.  Mutation in place of one entry is therefore
      functional update at its position.  The one place where two names for
      one list object matter is [Document.framed], which is modelled over an
      explicit heap.
    - A Python [str] is a [string]; its characters are the [ascii] of the
      string.
    - Exceptions are the constructor [Raise] of [result].
    - The context cache and the aggregated remote context are only read by
      key: they are finite maps ([gmap string json]). *)

From Stdlib Require Import ZArith String Ascii List Bool Lia.
From stdpp Require Import gmap strings list.

Local Open Scope Z_scope.
Local Open Scope string_scope.
Local Open Scope list_scope.

(** ** JSON values *)

#[local] Unset Elimination Schemes.
Inductive json : Type :=
| JNull
| JBool (b : bool)
| JNum (n : Z)
| JStr (s : string)
| JList (xs : list json)
| JDict (d : list (string * json)).
#[local] Set Elimination Schemes.

(** A Python [dict] inside a JSON value. *)
Abbreviation dict := (list (string * json)).

(** ** Exceptions *)

Inductive exn : Type :=
| KeyError | TypeError | AttributeError | IndexError | ValueError.

Inductive result (A : Type) : Type :=
| Ok (a : A)
| Raise (e : exn).
Arguments Ok {A} a.
Arguments Raise {A} e.

#[export] Instance result_ret : MRet result := fun A a => Ok a.
#[export] Instance result_bind : MBind result := fun A B f m =>
  match m with
  | Ok a => f a
  | Raise e => Raise e
  end.

(** [try: body except: handler] with a bare [except] (or [except Exception]). *)
Definition try_except {A} (body handler : result A) : result A :=
  match body with
  | Ok a => Ok a
  | Raise _ => handler
  end.

(** ** Python operations on dicts *)

Module PyDict.

(** [d[k]], as an option. *)
Fixpoint get (k : string) (d : dict) : option json :=
  match d with
  | [] => None
  | (k', v) :: d' => if String.eqb k k' then Some v else get k d'
  end.

(** [k in d]. *)
Definition mem (k : string) (d : dict) : bool :=
  match get k d with Some _ => true | None => false end.

(** The dict left by [d.pop(k)].  Keys of a dict are unique, so dropping
    every binding of [k] drops the one there is. *)
Fixpoint pop (k : string) (d : dict) : dict :=
  match d with
  | [] => []
  | (k', v) :: d' => if String.eqb k k' then pop k d' else (k', v) :: pop k d'
  end.

(** [d[k] = v]: an existing key keeps its position, a new key goes last. *)
Fixpoint set (k : string) (v : json) (d : dict) : dict :=
  match d with
  | [] => [(k, v)]
  | (k', v') :: d' =>
      if String.eqb k k' then (k', v) :: d' else (k', v') :: set k v d'
  end.

(** [list(d)]: the keys, in insertion order. *)
Definition keys (d : dict) : list string := map fst d.

(** [d.update(other)] for a dict [other]. *)
Definition update (d other : dict) : dict :=
  fold_left (fun acc kv => set (fst kv) (snd kv) acc) other d.

End PyDict.

(** ** Truth value and equality of Python values *)

(** [bool(x)]: [None], [False], [0], [''], [[]] and [{}] are false. *)
Definition truthy (x : json) : bool :=
  match x with
  | JNull => false
  | JBool b => b
  | JNum n => negb (n =? 0)%Z
  | JStr s => negb (String.eqb s "")
  | JList xs => match xs with [] => false | _ => true end
  | JDict d => match d with [] => false | _ => true end
  end.

(** [a == b].  [bool] is a subclass of [int] ([True == 1], [False == 0]);
    lists compare element-wise; dicts compare as maps, whatever the order
    of insertion. *)
Fixpoint py_eq (a b : json) {struct a} : bool :=
  match a, b with
  | JNull, JNull => true
  | JBool x, JBool y => Bool.eqb x y
  | JBool x, JNum n => (Z.b2z x =? n)%Z
  | JNum n, JBool y => (n =? Z.b2z y)%Z
  | JNum n, JNum m => (n =? m)%Z
  | JStr s, JStr t => String.eqb s t
  | JList xs, JList ys =>
      (fix go (xs ys : list json) {struct xs} : bool :=
         match xs, ys with
         | [], [] => true
         | x :: xs', y :: ys' => py_eq x y && go xs' ys'
         | _, _ => false
         end) xs ys
  | JDict d, JDict e =>
      Nat.eqb (length d) (length e) &&
      (fix go (d : dict) {struct d} : bool :=
         match d with
         | [] => true
         | (k, v) :: d' =>
             match PyDict.get k e with
             | Some w => py_eq v w
             | None => false
             end && go d'
         end) d
  | _, _ => false
  end.

(** ** Python operations on strings and sequences *)

(** The characters of a string, each as a string of length one
    (what iterating a [str] yields). *)
Fixpoint chars (s : string) : list string :=
  match s with
  | EmptyString => []
  | String c s' => String c EmptyString :: chars s'
  end.

(** [sub in s] for strings: substring test. *)
Definition str_contains (sub s : string) : bool :=
  match String.index 0 sub s with Some _ => true | None => false end.

(** [[i for i in items if isinstance(i, str)]]. *)
Fixpoint str_items (items : list json) : list string :=
  match items with
  | [] => []
  | JStr s :: items' => s :: str_items items'
  | _ :: items' => str_items items'
  end.

(** [iter(x)]: lists yield their elements, strings their characters, dicts
    their keys; anything else is not iterable. *)
Definition py_iter (x : json) : result (list json) :=
  match x with
  | JList xs => Ok xs
  | JStr s => Ok (map JStr (chars s))
  | JDict d => Ok (map JStr (PyDict.keys d))
  | JNull | JBool _ | JNum _ => Raise TypeError
  end.

(** [xs.remove(x)]: drop the first element equal to [x]; [ValueError] when
    there is none. *)
Fixpoint list_remove (x : json) (xs : list json) : result (list json) :=
  match xs with
  | [] => Raise ValueError
  | y :: ys =>
      if py_eq y x then Ok ys
      else ys' ← list_remove x ys; Ok (y :: ys')
  end.

(** [c.remove(x)] on an arbitrary value: only lists have the method. *)
Definition py_remove (c : json) (x : json) : result json :=
  match c with
  | JList xs => xs' ← list_remove x xs; Ok (JList xs')
  | _ => Raise AttributeError
  end.

(** [c.append(x)]: only lists have the method. *)
Definition py_append (c : json) (x : json) : result json :=
  match c with
  | JList xs => Ok (JList (xs ++ [x]))
  | _ => Raise AttributeError
  end.

(** [c[-1]]. *)
Definition py_last (c : json) : result json :=
  match c with
  | JList xs =>
      match last xs with Some x => Ok x | None => Raise IndexError end
  | JStr s =>
      match last (chars s) with
      | Some ch => Ok (JStr ch)
      | None => Raise IndexError
      end
  | JDict _ => Raise KeyError
  | JNull | JBool _ | JNum _ => Raise TypeError
  end.

(** [k in x] for a string [k]. *)
Definition py_contains (k : string) (x : json) : result bool :=
  match x with
  | JDict d => Ok (PyDict.mem k d)
  | JList xs => Ok (existsb (fun y => py_eq (JStr k) y) xs)
  | JStr s => Ok (str_contains k s)
  | JNull | JBool _ | JNum _ => Raise TypeError
  end.

(** [c[-1][k] = v]: the last element of [c] must be a dict, which is updated
    in place; every other shape raises. *)
Definition set_last_item (c : json) (k : string) (v : json) : result json :=
  x ← py_last c;
  match x, c with
  | JDict m, JList xs => Ok (JList (removelast xs ++ [JDict (PyDict.set k v m)]))
  | _, _ => Raise TypeError
  end.

(** [x[k]] for a string key [k]. *)
Definition py_getitem (x : json) (k : string) : result json :=
  match x with
  | JDict d =>
      match PyDict.get k d with Some v => Ok v | None => Raise KeyError end
  | _ => Raise TypeError
  end.

(** A loop whose body may raise. *)
Fixpoint foldM {A B} (f : B → A → result B) (xs : list A) (acc : B)
  : result B :=
  match xs with
  | [] => Ok acc
  | x :: xs' => acc' ← f acc x; foldM f xs' acc'
  end.

(** ** The aggregated remote context

    [remote_context] is a dict that is only ever asked [key in
    remote_context] for term names, which are strings.  It is modelled as a
    finite map on strings; a binding whose key is not a string could never
    answer such a test and is not recorded. *)

(** One element of a non-mapping argument of [dict.update]: it must be an
    iterable of length two, whose first component is hashable. *)
Definition update_pair (e : json) : result (option (string * json)) :=
  items ← py_iter e;
  match items with
  | [k; v] =>
      match k with
      | JStr s => Ok (Some (s, v))
      | JList _ | JDict _ => Raise TypeError
      | JNull | JBool _ | JNum _ => Ok None
      end
  | _ => Raise ValueError
  end.

(** [remote_context.update(other)]. *)
Definition remote_update (remote : gmap string json) (other : json)
  : result (gmap string json) :=
  match other with
  | JDict d => Ok (fold_left (fun acc kv => <[kv.1 := kv.2]> acc) d remote)
  | _ =>
      items ← py_iter other;
      foldM (fun acc e =>
               p ← update_pair e;
               match p with
               | Some (k, v) => Ok (<[k := v]> acc)
               | None => Ok acc
               end) items remote
  end.

(** ** The class [Document] *)

Module Document.

(** The published URI of the ontology context. *)
Definition CANONICAL_URI : string :=
  "https://edwardanderson.github.io/articular/ns/v1/articular.json".

(** Lines 124-125: the body of the loop over the remote context keys. *)
Definition remote_step (context : gmap string json)
    (remote_context : gmap string json) (key : string)
  : result (gmap string json) :=
  match context !! key with
  | Some doc =>
      body ← py_getitem doc "@context";
      remote_update remote_context body
  | None => Ok remote_context
  end.

(** Lines 120-125: aggregate the remote contexts that the document names
    and the cache holds. *)
Definition remote_context (remote_context_keys : list string)
    (context : option (gmap string json)) : result (gmap string json) :=
  match context with
  | Some c =>
      if decide (c = ∅) then Ok ∅
      else foldM (remote_step c) remote_context_keys ∅
  | None => Ok ∅
  end.

(** Lines 131-140: the body of the loop over the keys of one mapping
    entry.  A key of the remote context is popped; then [item[key]] is
    read again ([KeyError] when it has just been popped, swallowed) and
    popped when it is a string that starts with [user:]
    ([AttributeError] for a value without [startswith], swallowed). *)
Definition clean_key (remote : gmap string json) (item : dict)
    (key : string) : dict :=
  let item :=
    if decide (is_Some (remote !! key)) then PyDict.pop key item else item in
  match PyDict.get key item with
  | Some (JStr value) =>
      if String.prefix "user:" value then PyDict.pop key item else item
  | _ => item
  end.

(** Lines 129-140: one entry of the user context; only dicts are touched,
    looping over a copy of their keys. *)
Definition clean_item (remote : gmap string json) (item : json) : json :=
  match item with
  | JDict d => JDict (fold_left (clean_key remote) (PyDict.keys d) d)
  | _ => item
  end.

(** Lines 128-140: [for item in user_context].  The entries of a list are
    cleaned in place; a string or a dict yields strings only, and nothing
    is changed; other values are not iterable. *)
Definition clean_entries (remote : gmap string json) (user_context : json)
  : result json :=
  match user_context with
  | JList items => Ok (JList (map (clean_item remote) items))
  | JStr _ | JDict _ => Ok user_context
  | JNull | JBool _ | JNum _ => Raise TypeError
  end.

(** Lines 143-145: [for item in list(user_context): if not item:
    user_context.remove(item)], over a snapshot. *)
Definition remove_empty (snapshot : list json) (user_context : json)
  : result json :=
  foldM (fun uc item => if truthy item then Ok uc else py_remove uc item)
        snapshot user_context.

(** [Document._deduplicate_context], with [self.remote_context_keys] as
    its first argument. *)
Definition _deduplicate_context (remote_context_keys : list string)
    (user_context : json) (context : option (gmap string json))
  : result json :=
  remote ← remote_context remote_context_keys context;
  user_context ← clean_entries remote user_context;
  snapshot ← py_iter user_context;
  remove_empty snapshot user_context.

(** Lines 87-90: the string entries of the user context; a value that is
    not iterable gives no keys. *)
Definition remote_context_keys (user_contexts : json)
  : result (list string) :=
  match py_iter user_contexts with
  | Ok items => Ok (str_items items)
  | Raise TypeError => Ok []
  | Raise e => Raise e
  end.

(** Truth value of an optional string argument ([if uri:], [if vocab:]). *)
Definition supplied (a : option string) : option string :=
  match a with
  | Some s => if String.eqb s "" then None else Some s
  | None => None
  end.

(** Lines 97-101: the [try] block that records the base. *)
Definition with_base (uri : string) (context : json) : result json :=
  let base := JStr (uri +:+ "#") in
  try_except (set_last_item context "@base" base)
             (py_append context (JDict [("@base", base)])).

(** Lines 95-101: [if uri:]. *)
Definition base_marker (uri : option string) (context : json)
  : result json :=
  match supplied uri with
  | Some u => with_base u context
  | None => Ok context
  end.

(** Lines 104-108: the [try] block that records the vocabulary. *)
Definition with_vocab (vocab : string) (context : json) : result json :=
  try_except
    (x ← py_last context;
     has ← py_contains "@vocab" x;
     if negb has then set_last_item context "@vocab" (JStr vocab)
     else Ok context)
    (py_append context (JDict [("@vocab", JStr vocab)])).

(** Lines 103-108: [if vocab:]. *)
Definition vocab_marker (vocab : option string) (context : json)
  : result json :=
  match supplied vocab with
  | Some v => with_vocab v context
  | None => Ok context
  end.

(** [Document.__init__], from the content tree that the template
    transform returns.  The result is [self.document]. *)
Definition __init__ (content : dict) (uri : option string)
    (context : option (gmap string json)) (vocab : option string)
  : result dict :=
  user_contexts ← py_getitem (JDict content) "@context";
  let content := PyDict.pop "@context" content in
  keys ← remote_context_keys user_contexts;
  clean_context ← _deduplicate_context keys user_contexts context;
  clean_context ← base_marker uri clean_context;
  clean_context ← vocab_marker vocab clean_context;
  let document :=
    ("@context", clean_context) ::
    match supplied uri with Some u => [("id", JStr u)] | None => [] end in
  Ok (PyDict.update document content).

End Document.

(** ** [Document.framed], over a heap

    [framed] binds a second name to the list object that is the value of
    [self.document['@context']] and assigns to it by index, so here the
    context arrays are objects of a heap and dicts refer to them by
    location.  A dict whose ['@context'] entry is such an array is an
    [obj]: the location of the array and the other entries. *)

Module Framing.

Abbreviation loc := positive.
Abbreviation heap := (gmap positive (list json)).

Record obj : Type := { obj_context : loc; obj_fields : dict }.

(** The dict as a JSON tree, reading its context array from the heap. *)
Definition view (h : heap) (o : obj) : option dict :=
  xs ← h !! obj_context o;
  Some (("@context", JList xs) :: obj_fields o).

(** Statements that read and write the heap and may raise. *)
Definition M (A : Type) : Type := heap → heap * result A.

Definition seq {A B} (m : M A) (k : A → M B) : M B := fun h =>
  match m h with
  | (h', Ok a) => k a h'
  | (h', Raise e) => (h', Raise e)
  end.

Definition pure {A} (r : result A) : M A := fun h => (h, r).

(** [l[i] = v] on the list object at [l]. *)
Definition list_setitem (l : loc) (i : nat) (v : json) : M unit := fun h =>
  match h !! l with
  | Some xs =>
      if decide (i < length xs)%nat
      then (<[l := <[i := v]> xs]> h, Ok ())
      else (h, Raise IndexError)
  | None => (h, Raise TypeError)
  end.

Section WithLibrary.

(** The file [docs/ns/v1/articular.json] as [json.load] returns it. *)
Variable ontology : json.

(** [pyld.jsonld.frame(input, frame)]: an external library.  It is given
    the heap and may allocate; it returns the framed document. *)
Variable jsonld_frame : obj → obj → M obj.

(** [Template._dump]: serialisation. *)
Variable dump : heap → obj → string.

(** The property [Document.framed] of the document [self_document]. *)
Definition framed (self_document : obj) : M string :=
  let context := obj_context self_document in
  seq (pure (py_getitem ontology "@context")) (fun body =>
  seq (list_setitem context 0 body) (fun _ =>
  seq (pure (py_getitem (JDict (obj_fields self_document)) "id")) (fun id =>
  let frame :=
    {| obj_context := context;
       obj_fields := [("@embed", JStr "@always"); ("@id", id)] |} in
  seq (jsonld_frame self_document frame) (fun framed =>
  seq (list_setitem (obj_context framed) 0 (JStr Document.CANONICAL_URI))
      (fun _ => fun h => (h, Ok (dump h framed))))))).

End WithLibrary.

(** A library that answers with a copy of the frame's context in a new
    list object and the entries of its input, and touches nothing else.
    It stands for the library only where a concrete one is needed to run
    [framed]. *)
Definition copying_frame (input frame : obj) : M obj := fun h =>
  match h !! obj_context frame with
  | Some xs =>
      let l := fresh (dom h) in
      (<[l := xs]> h, Ok {| obj_context := l; obj_fields := obj_fields input |})
  | None => (h, Raise TypeError)
  end.

End Framing.

(** ** The command line ([articular/cli.py])

    [main] loops over the files, keeps a cache of the remote contexts it has
    fetched and prints one document per file.  Everything it calls outside
    [Document] is a parameter: the file system, the front matter parser, the
    HTTP session, the template transform and the serialisers.  [main] either
    catches every exception of a call or none, so which exception such a
    call raises is immaterial.  The session may answer differently from one
    request to the next: it is given the requests made so far. *)

Module Cli.

(** What the loop of [main] has built up: [cached_contexts], the lines
    printed, and the URLs handed to [session.get], oldest first. *)
Record state : Type := {
  cached_contexts : gmap string json;
  printed : list string;
  requests : list string
}.

Section WithWorld.

(** [open(path).read()]. *)
Variable read_file : string → result string.

(** [str(path.parent.joinpath(path.stem))]. *)
Variable location : string → string.

(** [frontmatter.parse(markdown)[0].get('context')]. *)
Variable front_matter_context : string → result (option json).

(** [session.get(url)], after the requests in the first argument, and
    [response.json()]. *)
Variable response : Type.
Variable session_get : list string → string → result response.
Variable response_json : response → result json.

(** [Template.transform]. *)
Variable transform : string → result dict.

(** What is printed for a document in the given format: [str(document)]
    for [json], the serialisation of the parsed graph otherwise. *)
Variable render : string → dict → result string.

(** Lines 60-69: build the document and print it. *)
Definition emit (format : string) (markdown uri : string) (s : state)
  : result state :=
  content ← transform markdown;
  document ←
    Document.__init__ content (Some uri) (Some (cached_contexts s)) None;
  out ← render format document;
  Ok {| cached_contexts := cached_contexts s;
        printed := printed s ++ [out];
        requests := requests s |}.

(** Lines 39-69: the body of the loop over [args.files]. *)
Definition process (base : option string) (format : string) (s : state)
    (path : string) : result state :=
  markdown ← read_file path;
  let uri :=
    match Document.supplied base with
    | Some b => b +:+ location path
    | None => location path
    end in
  front_matter_context ← front_matter_context markdown;
  match front_matter_context with
  | Some (JStr url) =>
      if decide (is_Some (cached_contexts s !! url)) then emit format markdown uri s
      else
        match session_get (requests s) url with
        | Raise _ =>
            Ok {| cached_contexts := cached_contexts s;
                  printed := printed s;
                  requests := requests s ++ [url] |}
        | Ok r =>
            context ← response_json r;
            emit format markdown uri
              {| cached_contexts := <[url := context]> (cached_contexts s);
                 printed := printed s;
                 requests := requests s ++ [url] |}
        end
  | _ => emit format markdown uri s
  end.

(** Lines 35-69: [main], from the parsed arguments. *)
Definition main (files : list string) (base : option string)
    (format : string) : result state :=
  foldM (process base format) files
        {| cached_contexts := ∅; printed := []; requests := [] |}.

End WithWorld.

End Cli.

(** * Notions used in the statements *)

(** A key goes when the remote context defines it or when its value is a
    string that starts with [user:]. *)
Definition doomed (remote : gmap string json) (item : dict) (key : string)
  : bool :=
  bool_decide (is_Some (remote !! key)) ||
  match PyDict.get key item with
  | Some (JStr value) => String.prefix "user:" value
  | _ => false
  end.

(** [acc] with the bindings [bs] written in turn. *)
Definition write_all (bs : dict) (acc : gmap string json) : gmap string json :=
  fold_left (fun acc kv => <[kv.1 := kv.2]> acc) bs acc.

(** Whether a step of the aggregation raises, and what it writes, does not
    depend on what has been aggregated so far. *)
Definition uniform {A} (step : gmap string json → A → result (gmap string json))
    (x : A) : Prop :=
  (∃ bs, ∀ acc, step acc x = Ok (write_all bs acc)) ∨
  (∃ e, ∀ acc, step acc x = Raise e).

(** Two more stand-ins for the library, to run [framed] with: one that
    raises, and one that hands back the very array of the frame. *)
Definition failing_frame (input frame : Framing.obj)
  : Framing.M Framing.obj :=
  fun h => (h, Raise ValueError).

Definition sharing_frame (input frame : Framing.obj)
  : Framing.M Framing.obj :=
  fun h => (h, Ok {| Framing.obj_context := Framing.obj_context frame;
                     Framing.obj_fields := Framing.obj_fields input |}).

(** A world to run [main] in: the files are their own names, a file named
    [remote.md] declares the context [https://example.org/ctx] and the
    others none, the session answers every request with the same context
    document, and every document is printed as its ['_label']. *)
Module World.

Definition read_file (path : string) : result string := Ok path.

Definition location (path : string) : string := path.

Definition front_matter_context (markdown : string) : result (option json) :=
  if String.eqb markdown "remote.md"
  then Ok (Some (JStr "https://example.org/ctx"))
  else Ok None.

Definition session_get (log : list string) (url : string) : result json :=
  Ok (JDict [("@context",
              JDict [("birthPlace",
                      JDict [("@id", JStr "https://schema.org/birthPlace")])])]).

Definition response_json (r : json) : result json := Ok r.

Definition transform (markdown : string) : result dict :=
  Ok [("@context", JList [JStr Document.CANONICAL_URI]);
      ("_label", JStr markdown)].

Definition render (format : string) (document : dict) : result string :=
  match PyDict.get "_label" document with
  | Some (JStr s) => Ok s
  | _ => Raise KeyError
  end.

Definition main (files : list string) : result Cli.state :=
  Cli.main read_file location front_matter_context json session_get
    response_json transform render files None "json".

(** The same world with a session whose first request fails. *)
Definition flaky_get (log : list string) (url : string) : result json :=
  match log with
  | [] => Raise ValueError
  | _ => session_get log url
  end.

Definition flaky_main (files : list string) : result Cli.state :=
  Cli.main read_file location front_matter_context json flaky_get
    response_json transform render files None "json".

End World.

(** How many of the requests [urls], made in this order after the
    requests [before], the session failed. *)
Fixpoint failed_requests {response : Type}
    (session_get : list string → string → result response)
    (before urls : list string) : nat :=
  match urls with
  | [] => 0
  | url :: urls' =>
      (match session_get before url with Ok _ => 0 | Raise _ => 1 end +
       failed_requests session_get (before ++ [url]) urls')%nat
  end.

(** [isinstance(x, dict)]. *)
Definition is_mapping (x : json) : bool :=
  match x with JDict _ => true | _ => false end.

(** ** Scenario data *)

Definition example_ctx : string := "https://example.org/ctx".

Definition example_cache : gmap string json :=
  {[ example_ctx :=
       JDict [("@context",
               JDict [("birthPlace",
                       JDict [("@id", JStr "https://schema.org/birthPlace")])])] ]}.

Definition book_entry : json := JDict [("Book", JStr "https://schema.org/Book")].

(** * Properties *)

(** ** The doctests of the class

    The two documents of the class docstring, built from content trees that
    carry the contexts of the two Markdown sources. *)

Example doctest_book :
  Document.__init__
    [("@context", JList [JStr Document.CANONICAL_URI;
                         JDict [("Book", JStr "https://schema.org/Book")]]);
     ("_label", JStr "Tortilla Flat")] None None None
  = Ok [("@context", JList [JStr Document.CANONICAL_URI;
                         JDict [("Book", JStr "https://schema.org/Book")]]);
        ("_label", JStr "Tortilla Flat")].
Proof. vm_compute. reflexivity. Qed.

Example doctest_hitchcock :
  Document.__init__
    [("@context", JList [JStr Document.CANONICAL_URI;
                         JStr "https://schema.org/docs/jsonldcontext.json";
                         JDict [("birthPlace", JStr "https://schema.org/birthPlace")]]);
     ("_label", JStr "Alfred Hitchcock")] (Some "alfred-hitchcock")
    (Some {[ "https://schema.org/docs/jsonldcontext.json" :=
       JDict [("@context", JDict [("birthPlace", JDict [("@id", JStr "https://schema.org/birthPlace")])])] ]})
    None
  = Ok [("@context", JList [JStr Document.CANONICAL_URI;
                         JStr "https://schema.org/docs/jsonldcontext.json";
                         JDict [("@base", JStr "alfred-hitchcock#")]]);
        ("id", JStr "alfred-hitchcock");
        ("_label", JStr "Alfred Hitchcock")].
Proof. vm_compute. reflexivity. Qed.

(** ** Association lists *)

Section DictFacts.

Implicit Types (k : string) (v : json) (d : dict).

Lemma pop_filter k d :
  PyDict.pop k d = List.filter (fun kv => negb (String.eqb k kv.1)) d.
Proof.
  induction d as [|[k' v'] d IH]; simpl; [reflexivity|].
  destruct (String.eqb k k'); simpl; congruence.
Qed.

Lemma get_pop_eq k d : PyDict.get k (PyDict.pop k d) = None.
Proof.
  induction d as [|[k' v'] d IH]; simpl; [reflexivity|].
  destruct (String.eqb k k') eqn:E; simpl; [assumption|].
  rewrite E. assumption.
Qed.

Lemma get_pop_ne k k' d :
  k ≠ k' → PyDict.get k' (PyDict.pop k d) = PyDict.get k' d.
Proof.
  intros Hne. induction d as [|[k0 v0] d IH]; simpl; [reflexivity|].
  destruct (String.eqb k k0) eqn:E; simpl.
  - apply String.eqb_eq in E. subst k0.
    destruct (String.eqb k' k) eqn:E'; [|assumption].
    apply String.eqb_eq in E'. congruence.
  - rewrite IH. reflexivity.
Qed.

Lemma get_set_eq k v d : PyDict.get k (PyDict.set k v d) = Some v.
Proof.
  induction d as [|[k' v'] d IH]; simpl.
  - rewrite String.eqb_refl. reflexivity.
  - destruct (String.eqb k k') eqn:E; simpl; rewrite E; [reflexivity|assumption].
Qed.

Lemma get_set_ne k k' v d :
  k ≠ k' → PyDict.get k' (PyDict.set k v d) = PyDict.get k' d.
Proof.
  intros Hne. induction d as [|[k0 v0] d IH]; simpl.
  - destruct (String.eqb k' k) eqn:E; [|reflexivity].
    apply String.eqb_eq in E. congruence.
  - destruct (String.eqb k k0) eqn:E; simpl.
    + apply String.eqb_eq in E. subst k0.
      destruct (String.eqb k' k) eqn:E'; [|reflexivity].
      apply String.eqb_eq in E'. congruence.
    + rewrite IH. reflexivity.
Qed.

(** [d.update(other)] keeps a key that [other] does not define. *)
Lemma get_update_absent k d other :
  PyDict.get k other = None →
  PyDict.get k (PyDict.update d other) = PyDict.get k d.
Proof.
  unfold PyDict.update. revert d.
  induction other as [|[k' v'] other IH]; intros d Hk; simpl in *.
  - reflexivity.
  - destruct (String.eqb k k') eqn:E; [discriminate|].
    rewrite IH by assumption. apply get_set_ne.
    intros ->. rewrite String.eqb_refl in E. discriminate.
Qed.

(** The first binding of a key passes a filter on keys. *)
Lemma get_filter_key (p : string → bool) k d :
  p k = true →
  PyDict.get k (List.filter (fun kv => p kv.1) d) = PyDict.get k d.
Proof.
  intros Hp. induction d as [|[k' v'] d IH]; simpl; [reflexivity|].
  destruct (String.eqb k k') eqn:E.
  - apply String.eqb_eq in E. subst k'. rewrite Hp. simpl.
    rewrite String.eqb_refl. reflexivity.
  - destruct (p k'); simpl; [rewrite E|]; assumption.
Qed.

Lemma get_Some_In k v d : PyDict.get k d = Some v → In (k, v) d.
Proof.
  induction d as [|[k' v'] d IH]; simpl; [discriminate|].
  destruct (String.eqb k k') eqn:E.
  - apply String.eqb_eq in E. intros [= ->]. left. congruence.
  - intros H. right. auto.
Qed.

Lemma In_mem k v d : In (k, v) d → PyDict.mem k d = true.
Proof.
  unfold PyDict.mem.
  induction d as [|[k' v'] d IH]; simpl; [tauto|].
  intros [[= -> ->]|H].
  - rewrite String.eqb_refl. reflexivity.
  - destruct (String.eqb k k'); [reflexivity|auto].
Qed.

Lemma mem_filter (p : string * json → bool) k d :
  PyDict.mem k (List.filter p d) = true → PyDict.mem k d = true.
Proof.
  unfold PyDict.mem at 1.
  destruct (PyDict.get k (List.filter p d)) as [v|] eqn:E; [|discriminate].
  intros _. apply get_Some_In in E. apply filter_In in E as [E _].
  eapply In_mem; eassumption.
Qed.

End DictFacts.

(** ** Lists *)

Lemma filter_all_true {A} (p : A → bool) (l : list A) :
  (∀ x, In x l → p x = true) → List.filter p l = l.
Proof.
  induction l as [|a l IH]; simpl; intros H; [reflexivity|].
  rewrite (H a) by auto. f_equal. apply IH. auto.
Qed.

Lemma filter_all_false {A} (p : A → bool) (l : list A) :
  (∀ x, In x l → p x = false) → List.filter p l = [].
Proof.
  induction l as [|a l IH]; simpl; intros H; [reflexivity|].
  rewrite (H a) by auto. apply IH. auto.
Qed.

Lemma filter_twice {A} (p q : A → bool) (l : list A) :
  List.filter p (List.filter q l) = List.filter (fun x => q x && p x) l.
Proof.
  induction l as [|a l IH]; simpl; [reflexivity|].
  destruct (q a); simpl; [destruct (p a)|]; simpl; congruence.
Qed.

(** ** Falsy values and [list.remove] *)

(** Whatever compares equal to a falsy value is falsy. *)
Lemma py_eq_falsy (x y : json) :
  truthy x = false → py_eq y x = true → truthy y = false.
Proof.
  destruct x as [|b|n|s|xs|d]; simpl; intros Hx.
  - destruct y; simpl; congruence.
  - subst b. destruct y as [|b'|n'|s'|xs'|d']; simpl; try congruence.
    + destruct b'; simpl; congruence.
    + intros H. apply Z.eqb_eq in H. subst n'. reflexivity.
  - apply negb_false_iff, Z.eqb_eq in Hx. subst n.
    destruct y as [|b'|n'|s'|xs'|d']; simpl; try congruence.
    + destruct b'; simpl; congruence.
    + intros H. rewrite H. reflexivity.
  - apply negb_false_iff, String.eqb_eq in Hx. subst s.
    destruct y as [|b'|n'|s'|xs'|d']; simpl; try congruence.
    intros H. rewrite H. reflexivity.
  - destruct xs; [|discriminate].
    destruct y as [|b'|n'|s'|xs'|d']; simpl; try congruence.
    destruct xs'; congruence.
  - destruct d; [|discriminate].
    destruct y as [|b'|n'|s'|xs'|d']; simpl; try congruence.
    destruct d'; simpl; congruence.
Qed.

Lemma py_eq_refl_falsy (x : json) : truthy x = false → py_eq x x = true.
Proof.
  destruct x as [|b|n|s|xs|d]; simpl; intros Hx.
  - reflexivity.
  - subst b. reflexivity.
  - apply Z.eqb_refl.
  - apply String.eqb_refl.
  - destruct xs; [reflexivity|discriminate].
  - destruct d; [reflexivity|discriminate].
Qed.

(** [remove] passes over a truthy prefix and takes the falsy element out. *)
Lemma list_remove_after_truthy (pre post : list json) (x : json) :
  Forall (fun y => truthy y = true) pre → truthy x = false →
  list_remove x (pre ++ x :: post) = Ok (pre ++ post).
Proof.
  intros Hpre Hx. induction Hpre as [|y pre Hy _ IH]; simpl.
  - rewrite py_eq_refl_falsy by assumption. reflexivity.
  - destruct (py_eq y x) eqn:E.
    + apply py_eq_falsy in E; [congruence|assumption].
    + rewrite IH. reflexivity.
Qed.

(** The loop of lines 143-145 on a list: it never raises, and it leaves the
    truthy entries, in their order. *)
Lemma remove_empty_list (snapshot pre : list json) :
  Forall (fun y => truthy y = true) pre →
  Document.remove_empty snapshot (JList (pre ++ snapshot))
  = Ok (JList (pre ++ List.filter truthy snapshot)).
Proof.
  unfold Document.remove_empty. revert pre.
  induction snapshot as [|x rest IH]; intros pre Hpre; simpl.
  - reflexivity.
  - destruct (truthy x) eqn:Hx; simpl.
    + replace (pre ++ x :: rest) with ((pre ++ [x]) ++ rest)
        by (rewrite <- app_assoc; reflexivity).
      rewrite IH.
      * rewrite <- app_assoc. reflexivity.
      * apply Forall_app. split; [assumption|]. constructor; [assumption|constructor].
    + rewrite list_remove_after_truthy by assumption. simpl.
      apply IH. assumption.
Qed.

(** ** One mapping entry *)

Lemma clean_key_doomed remote item key :
  Document.clean_key remote item key
  = if doomed remote item key then PyDict.pop key item else item.
Proof.
  unfold Document.clean_key, doomed.
  destruct (decide (is_Some (remote !! key))) as [Hin|Hout].
  - rewrite bool_decide_true by assumption. simpl.
    rewrite get_pop_eq. reflexivity.
  - rewrite bool_decide_false by assumption. simpl.
    destruct (PyDict.get key item) as [[| | |s| |]|]; try reflexivity.
Qed.

Lemma doomed_pop_ne remote item k k' :
  k ≠ k' → doomed remote (PyDict.pop k item) k' = doomed remote item k'.
Proof. intros Hne. unfold doomed. rewrite get_pop_ne by assumption. reflexivity. Qed.

Lemma clean_keys_filter remote (ks : list string) (item : dict) :
  fold_left (Document.clean_key remote) ks item
  = List.filter
      (fun kv => negb (existsb (String.eqb kv.1) ks && doomed remote item kv.1))
      item.
Proof.
  revert item. induction ks as [|k ks IH]; intros item; simpl.
  - symmetry. apply filter_all_true. reflexivity.
  - rewrite IH, clean_key_doomed.
    destruct (doomed remote item k) eqn:Hk.
    + rewrite pop_filter at 1. rewrite filter_twice.
      apply filter_ext. intros [k' v']. simpl.
      destruct (String.eqb k k') eqn:E.
      * apply String.eqb_eq in E. subst k'. rewrite String.eqb_refl, Hk.
        reflexivity.
      * rewrite doomed_pop_ne
          by (intros ->; rewrite String.eqb_refl in E; discriminate).
        rewrite String.eqb_sym, E. reflexivity.
    + apply filter_ext. intros [k' v']. simpl.
      destruct (String.eqb k' k) eqn:E; [|reflexivity].
      apply String.eqb_eq in E. subst k'. rewrite Hk.
      rewrite !andb_false_r. reflexivity.
Qed.

(** The entry after lines 129-140: the bindings of the keys that stay. *)
Lemma clean_item_dict remote (d : dict) :
  Document.clean_item remote (JDict d)
  = JDict (List.filter (fun kv => negb (doomed remote d kv.1)) d).
Proof.
  simpl. rewrite clean_keys_filter. f_equal.
  apply filter_ext_in. intros [k v] Hin. simpl.
  replace (existsb (String.eqb k) (PyDict.keys d)) with true; [reflexivity|].
  symmetry. apply existsb_exists. exists k. split.
  - unfold PyDict.keys. apply in_map_iff. exists (k, v). auto.
  - apply String.eqb_refl.
Qed.

(** ** De-duplication of a list *)

(** On a list, and once the remote contexts are aggregated,
    [_deduplicate_context] returns: the entries are cleaned, and the truthy
    ones are kept in their order. *)
Lemma deduplicate_list keys (items : list json) context remote :
  Document.remote_context keys context = Ok remote →
  Document._deduplicate_context keys (JList items) context
  = Ok (JList (List.filter truthy (map (Document.clean_item remote) items))).
Proof.
  intros Hr. unfold Document._deduplicate_context. rewrite Hr. simpl.
  apply (remove_empty_list _ []). constructor.
Qed.

Lemma remote_context_keys_list (items : list json) :
  Document.remote_context_keys (JList items)
  = Ok (str_items items).
Proof. reflexivity. Qed.

(** An entry whose keys all go is emptied. *)
Lemma clean_item_emptied remote (d : dict) :
  (∀ k v, In (k, v) d → doomed remote d k = true) →
  Document.clean_item remote (JDict d) = JDict [].
Proof.
  intros H. rewrite clean_item_dict. f_equal.
  apply filter_all_false. intros [k v] Hin. simpl.
  rewrite (H k v) by assumption. reflexivity.
Qed.

(** An entry is untouched by a second cleaning against a remote context
    that defines no more keys. *)
Lemma clean_item_stable remote remote' (x : json) :
  (∀ k, is_Some (remote' !! k) → is_Some (remote !! k)) →
  Document.clean_item remote' (Document.clean_item remote x)
  = Document.clean_item remote x.
Proof.
  intros Hsub. destruct x as [| | | | |d]; try reflexivity.
  rewrite clean_item_dict. set (d' := List.filter _ d).
  rewrite clean_item_dict. f_equal. apply filter_all_true.
  intros [k v] Hin. simpl.
  apply filter_In in Hin as [_ Hkeep]. simpl in Hkeep.
  apply negb_true_iff in Hkeep. apply negb_true_iff.
  assert (Hget : PyDict.get k d' = PyDict.get k d).
  { subst d'. apply (get_filter_key (fun k0 => negb (doomed remote d k0))).
    rewrite Hkeep. reflexivity. }
  unfold doomed in *. rewrite Hget.
  apply orb_false_iff in Hkeep as [Hr Hu].
  apply orb_false_iff. split; [|assumption].
  apply bool_decide_eq_false. intros Hs. apply Hsub in Hs.
  apply bool_decide_eq_false in Hr. contradiction.
Qed.

(** What [_deduplicate_context] returns for a list has no falsy entry left
    and no key left to remove. *)
Lemma clean_item_truthy_filter remote remote' (items : list json) :
  (∀ k, is_Some (remote' !! k) → is_Some (remote !! k)) →
  List.filter truthy
    (map (Document.clean_item remote')
         (List.filter truthy (map (Document.clean_item remote) items)))
  = List.filter truthy (map (Document.clean_item remote) items).
Proof.
  intros Hsub. induction items as [|x items IH]; simpl; [reflexivity|].
  destruct (truthy (Document.clean_item remote x)) eqn:Hx; simpl.
  - rewrite clean_item_stable by assumption. rewrite Hx, IH. reflexivity.
  - apply IH.
Qed.

(** ** Loops that may raise *)

Lemma foldM_app {A B} (f : B → A → result B) (xs ys : list A) (acc : B) :
  foldM f (xs ++ ys) acc = (acc' ← foldM f xs acc; foldM f ys acc').
Proof.
  revert acc. induction xs as [|x xs IH]; intros acc; simpl; [reflexivity|].
  destruct (f acc x) as [acc'|e]; simpl; [apply IH|reflexivity].
Qed.

Lemma foldM_invariant {A B} (P : B → Prop) (f : B → A → result B)
    (xs : list A) (acc acc' : B) :
  (∀ a x a', P a → f a x = Ok a' → P a') →
  P acc → foldM f xs acc = Ok acc' → P acc'.
Proof.
  intros Hstep. revert acc. induction xs as [|x xs IH]; intros acc HP; simpl.
  - intros [= <-]. assumption.
  - destruct (f acc x) as [a|e] eqn:E; simpl; [|discriminate].
    apply IH. eapply Hstep; eassumption.
Qed.

(** ** The aggregated remote context *)

Lemma write_all_lookup bs acc k :
  is_Some (write_all bs acc !! k) ↔ is_Some (acc !! k) ∨ In k (map fst bs).
Proof.
  unfold write_all. revert acc.
  induction bs as [|[k' v'] bs IH]; intros acc; simpl.
  - tauto.
  - rewrite IH. destruct (decide (k' = k)) as [->|Hne].
    + rewrite lookup_insert_eq. split; [auto|]. intros _. left. eauto.
    + rewrite lookup_insert_ne by assumption. tauto.
Qed.

Lemma foldM_uniform {A}
    (step : gmap string json → A → result (gmap string json)) (xs : list A) :
  (∀ x, uniform step x) →
  uniform (fun acc xs => foldM step xs acc) xs.
Proof.
  intros Hstep. induction xs as [|x xs IH]; simpl.
  - left. exists []. reflexivity.
  - destruct (Hstep x) as [[bs Hx]|[e Hx]].
    + destruct IH as [[bs' Hxs]|[e Hxs]].
      * left. exists (bs ++ bs'). intros acc. simpl. rewrite Hx. simpl.
        rewrite Hxs. unfold write_all. rewrite fold_left_app. reflexivity.
      * right. exists e. intros acc. simpl. rewrite Hx. simpl. apply Hxs.
    + right. exists e. intros acc. simpl. rewrite Hx. reflexivity.
Qed.

Lemma remote_update_uniform (other : json) :
  uniform remote_update other.
Proof.
  assert (Hseq : ∀ items,
    uniform (fun acc items =>
      foldM (fun acc e =>
               p ← update_pair e;
               match p with
               | Some (k, v) => Ok (<[k := v]> acc)
               | None => Ok acc
               end) items acc) items).
  { intros items. apply foldM_uniform. intros e.
    destruct (update_pair e) as [[[k v]|]|err] eqn:E.
    - left. exists [(k, v)]. intros acc. rewrite E. reflexivity.
    - left. exists []. intros acc. rewrite E. reflexivity.
    - right. exists err. intros acc. rewrite E. reflexivity. }
  destruct other as [|b|n|s|xs|d]; unfold remote_update; simpl.
  - right. exists TypeError. reflexivity.
  - right. exists TypeError. reflexivity.
  - right. exists TypeError. reflexivity.
  - apply Hseq.
  - apply Hseq.
  - left. exists d. reflexivity.
Qed.

Lemma remote_step_uniform c key : uniform (Document.remote_step c) key.
Proof.
  unfold uniform, Document.remote_step. destruct (c !! key) as [doc|].
  - destruct (py_getitem doc "@context") as [body|e]; simpl.
    + apply (remote_update_uniform body).
    + right. exists e. reflexivity.
  - left. exists []. reflexivity.
Qed.

Lemma remote_context_unfold keys context :
  Document.remote_context keys context
  = match context with
    | Some c => if decide (c = ∅) then Ok ∅ else foldM (Document.remote_step c) keys ∅
    | None => Ok ∅
    end.
Proof. reflexivity. Qed.

(** Keys once aggregated stay. *)
Lemma remote_step_keeps c remote key remote' k :
  Document.remote_step c remote key = Ok remote' →
  is_Some (remote !! k) → is_Some (remote' !! k).
Proof.
  intros Hs Hk. destruct (remote_step_uniform c key) as [[bs H]|[e H]];
    rewrite H in Hs; [|discriminate].
  injection Hs as <-. apply write_all_lookup. auto.
Qed.

(** A term that a referenced, cached remote context defines is a key of the
    aggregated remote context. *)
Lemma remote_context_defines keys c remote u doc body k def :
  Document.remote_context keys (Some c) = Ok remote →
  In u keys → c !! u = Some (JDict doc) →
  PyDict.get "@context" doc = Some (JDict body) →
  PyDict.get k body = Some def →
  is_Some (remote !! k).
Proof.
  rewrite remote_context_unfold. intros Hr Hin Hc Hdoc Hk.
  destruct (decide (c = ∅)) as [->|_]; [rewrite lookup_empty in Hc; discriminate|].
  apply in_split in Hin as (ks1 & ks2 & ->).
  rewrite foldM_app in Hr.
  destruct (foldM (Document.remote_step c) ks1 ∅) as [acc|e]; simpl in Hr; [|discriminate].
  assert (Hu : Document.remote_step c acc u = Ok (write_all body acc)).
  { unfold Document.remote_step. rewrite Hc. simpl. rewrite Hdoc. reflexivity. }
  rewrite Hu in Hr. simpl in Hr.
  eapply (foldM_invariant (fun r => is_Some (r !! k))); [| |exact Hr].
  - intros a x a' Ha Hstep. eapply remote_step_keeps; eassumption.
  - apply write_all_lookup. right. apply get_Some_In in Hk.
    apply in_map_iff. exists (k, def). auto.
Qed.

(** Aggregating over fewer keys succeeds when aggregating over all of them
    does, and defines no more terms. *)
Lemma remote_context_fewer_keys (p : string → bool) keys context remote :
  Document.remote_context keys context = Ok remote →
  ∃ remote', Document.remote_context (List.filter p keys) context = Ok remote' ∧
             ∀ k, is_Some (remote' !! k) → is_Some (remote !! k).
Proof.
  rewrite !remote_context_unfold. destruct context as [c|].
  2:{ intros [= <-]. eauto. }
  destruct (decide (c = ∅)) as [_|_]; [intros [= <-]; eauto|].
  assert (Hgen : ∀ acc acc2 : gmap string json,
    (∀ k, is_Some (acc2 !! k) → is_Some (acc !! k)) →
    foldM (Document.remote_step c) keys acc = Ok remote →
    ∃ remote', foldM (Document.remote_step c) (List.filter p keys) acc2 = Ok remote' ∧
               ∀ k, is_Some (remote' !! k) → is_Some (remote !! k)).
  { induction keys as [|key keys IH]; intros acc acc2 Hsub; simpl.
    - intros [= <-]. eauto.
    - destruct (remote_step_uniform c key) as [[bs H]|[e H]];
        rewrite H; simpl; [|discriminate].
      intros Hr. destruct (p key); simpl.
      + rewrite H. simpl. eapply IH; [|exact Hr].
        intros k. rewrite !write_all_lookup. intros [?|?]; auto.
      + eapply IH; [|exact Hr].
        intros k Hk. apply write_all_lookup. auto. }
  intros Hr. eapply Hgen; [|exact Hr]. auto.
Qed.

Lemma In_get k v (d : dict) : In (k, v) d → ∃ v', PyDict.get k d = Some v'.
Proof.
  intros Hin. apply In_mem in Hin. unfold PyDict.mem in Hin.
  destruct (PyDict.get k d) as [v'|]; [eauto|discriminate].
Qed.

(** The string entries of what [_deduplicate_context] returns for a list:
    those of the list, but for the empty string. *)
Lemma keys_of_output remote (items : list json) :
  str_items (List.filter truthy (map (Document.clean_item remote) items))
  = List.filter (fun s => negb (String.eqb s "")) (str_items items).
Proof.
  induction items as [|x items IH]; simpl; [reflexivity|].
  destruct x as [|b|n|s|xs|d]; simpl.
  - assumption.
  - destruct b; simpl; assumption.
  - destruct (negb (n =? 0)%Z); simpl; assumption.
  - destruct (negb (String.eqb s "")); simpl; congruence.
  - destruct xs; simpl; assumption.
  - destruct (fold_left _ _ _); simpl; assumption.
Qed.

(** The loop of lines 143-145 on a value that is not a list: it returns the
    value as it is, or raises. *)
Lemma remove_empty_not_list (snapshot : list json) (uc out : json) :
  (∀ xs, uc ≠ JList xs) →
  Document.remove_empty snapshot uc = Ok out → out = uc.
Proof.
  intros Hnl. unfold Document.remove_empty.
  induction snapshot as [|x rest IH]; simpl.
  - congruence.
  - destruct (truthy x); simpl; [assumption|].
    destruct uc; simpl; try discriminate. exfalso. eapply Hnl. reflexivity.
Qed.

Lemma deduplicate_not_list keys (uc out : json) context :
  (∀ xs, uc ≠ JList xs) →
  Document._deduplicate_context keys uc context = Ok out → out = uc.
Proof.
  intros Hnl. unfold Document._deduplicate_context.
  destruct (Document.remote_context keys context) as [remote|e]; simpl;
    [|discriminate].
  destruct uc as [|b|n|s|xs|d]; simpl; try discriminate.
  - apply remove_empty_not_list. assumption.
  - exfalso. eapply Hnl. reflexivity.
  - apply remove_empty_not_list. assumption.
Qed.

(** ** What no returned mapping holds *)

(** A term that the aggregated remote context defines is in no mapping that
    de-duplication returns. *)
Lemma remote_key_in_no_output remote (items : list json) (k : string) (m : dict) :
  is_Some (remote !! k) →
  In (JDict m) (List.filter truthy (map (Document.clean_item remote) items)) →
  PyDict.mem k m = false.
Proof.
  intros Hk Hin. apply filter_In in Hin as [Hin _].
  apply in_map_iff in Hin as (x & Hx & _).
  destruct x as [| | | | |d0]; try discriminate.
  rewrite clean_item_dict in Hx. injection Hx as <-.
  apply not_true_is_false. intros Hm. unfold PyDict.mem in Hm.
  destruct (PyDict.get k (List.filter _ d0)) as [v'|] eqn:Hget; [|discriminate].
  apply get_Some_In, filter_In in Hget as [_ Hkeep]. simpl in Hkeep.
  unfold doomed in Hkeep. rewrite bool_decide_true in Hkeep by assumption.
  discriminate.
Qed.

(** A mapping all of whose values are strings that start with [user:] is
    not among the entries that de-duplication returns. *)
Lemma user_entry_in_no_output remote (items : list json) (d : dict) :
  (∀ k v, In (k, v) d → ∃ s, v = JStr s ∧ String.prefix "user:" s = true) →
  ¬ In (JDict d) (List.filter truthy (map (Document.clean_item remote) items)).
Proof.
  intros Huser Hin. apply filter_In in Hin as [Hin Htruthy].
  destruct d as [|[k0 v0] d1]; [discriminate|].
  apply in_map_iff in Hin as (x & Hx & _).
  destruct x as [| | | | |d0]; try discriminate.
  rewrite clean_item_dict in Hx. injection Hx as Hd.
  assert (Hkept : doomed remote d0 k0 = false).
  { assert (Hin0 : In (k0, v0)
                     (List.filter (fun kv => negb (doomed remote d0 kv.1)) d0))
      by (rewrite Hd; left; reflexivity).
    apply filter_In in Hin0 as [_ Hkeep]. simpl in Hkeep.
    apply negb_true_iff in Hkeep. assumption. }
  assert (Hget : PyDict.get k0 d0 = Some v0).
  { rewrite <- (get_filter_key (fun k => negb (doomed remote d0 k)) k0 d0)
      by (rewrite Hkept; reflexivity).
    rewrite Hd. simpl. rewrite String.eqb_refl. reflexivity. }
  destruct (Huser k0 v0) as (s0 & -> & Hs); [left; reflexivity|].
  unfold doomed in Hkept. rewrite Hget, Hs, orb_true_r in Hkept. discriminate.
Qed.

(** * The claims about [_deduplicate_context] *)

(** C2. A mapping entry of the local context with exactly one key, that key
    being defined by a remote context which a string entry of the local
    context names and the cache holds, is absent from what de-duplication
    returns: the key is popped and the emptied mapping is dropped.  The
    result is made of the cleaned entries before it and those after it; the
    entry is not among them, nor is any mapping that defines the key; and
    it is the result for the local context without that entry. *)
Theorem sole_remote_key_entry_absent
    (pre post : list json) (k : string) (v : json)
    (keys : list string) (c : gmap string json) (remote : gmap string json)
    (u : string) (doc body : dict) (def : json) :
  In (JStr u) (pre ++ JDict [(k, v)] :: post) →
  c !! u = Some (JDict doc) →
  PyDict.get "@context" doc = Some (JDict body) →
  PyDict.get k body = Some def →
  Document.remote_context_keys (JList (pre ++ JDict [(k, v)] :: post)) = Ok keys →
  Document.remote_context keys (Some c) = Ok remote →
  Document.clean_item remote (JDict [(k, v)]) = JDict [] ∧
  ∃ out,
    Document._deduplicate_context keys
      (JList (pre ++ JDict [(k, v)] :: post)) (Some c) = Ok (JList out) ∧
    out = List.filter truthy (map (Document.clean_item remote) pre) ++
          List.filter truthy (map (Document.clean_item remote) post) ∧
    ¬ In (JDict [(k, v)]) out ∧
    (∀ m, In (JDict m) out → PyDict.mem k m = false) ∧
    Document._deduplicate_context keys (JList (pre ++ post)) (Some c)
      = Ok (JList out).
Proof.
  intros Hu Hc Hdoc Hk Hkeys Hr.
  assert (Hin : In u keys).
  { rewrite remote_context_keys_list in Hkeys. injection Hkeys as <-.
    clear -Hu. induction (pre ++ JDict [(k, v)] :: post) as [|x l IH];
      simpl in *; [contradiction|].
    destruct Hu as [->|Hu]; [left; reflexivity|].
    destruct x; simpl; auto. }
  assert (Hdef : is_Some (remote !! k))
    by (eapply remote_context_defines; eassumption).
  assert (Hempty : Document.clean_item remote (JDict [(k, v)]) = JDict []).
  { apply clean_item_emptied. intros k' v' [[= <- <-]|[]].
    unfold doomed. rewrite bool_decide_true by assumption. reflexivity. }
  split; [assumption|].
  eexists. rewrite !(deduplicate_list _ _ _ remote) by assumption.
  split; [reflexivity|].
  assert (Hout : List.filter truthy
                   (map (Document.clean_item remote)
                        (pre ++ JDict [(k, v)] :: post))
                 = List.filter truthy (map (Document.clean_item remote) pre) ++
                   List.filter truthy (map (Document.clean_item remote) post)).
  { rewrite !map_app, !List.filter_app, map_cons, Hempty. reflexivity. }
  assert (Hfree : ∀ m,
    In (JDict m)
       (List.filter truthy
          (map (Document.clean_item remote) (pre ++ JDict [(k, v)] :: post))) →
    PyDict.mem k m = false)
    by (intros m; apply remote_key_in_no_output; assumption).
  split; [exact Hout|]. split.
  - intros Hentry. apply Hfree in Hentry. unfold PyDict.mem in Hentry.
    simpl in Hentry. rewrite String.eqb_refl in Hentry. discriminate.
  - split; [exact Hfree|].
    rewrite Hout, map_app, List.filter_app. reflexivity.
Qed.

(** C8. A mapping entry of the local context in which the value of every key
    is a string that starts with [user:] is removed from what
    de-duplication returns: every key is popped and the emptied mapping is
    dropped.  The result is made of the cleaned entries before it and those
    after it; the entry is not among them; and it is the result for the
    local context without that entry. *)
Theorem user_prefixed_entry_removed
    (keys : list string) (pre post : list json) (d : dict)
    (context : option (gmap string json)) (remote : gmap string json) :
  (∀ k v, In (k, v) d → ∃ s, v = JStr s ∧ String.prefix "user:" s = true) →
  Document.remote_context keys context = Ok remote →
  Document.clean_item remote (JDict d) = JDict [] ∧
  ∃ out,
    Document._deduplicate_context keys (JList (pre ++ JDict d :: post)) context
      = Ok (JList out) ∧
    out = List.filter truthy (map (Document.clean_item remote) pre) ++
          List.filter truthy (map (Document.clean_item remote) post) ∧
    ¬ In (JDict d) out ∧
    Document._deduplicate_context keys (JList (pre ++ post)) context
      = Ok (JList out).
Proof.
  intros Huser Hr.
  assert (Hempty : Document.clean_item remote (JDict d) = JDict []).
  { apply clean_item_emptied. intros k v Hin.
    destruct (In_get _ _ _ Hin) as [v' Hget].
    destruct (Huser k v' (get_Some_In _ _ _ Hget)) as (s & -> & Hs).
    unfold doomed. rewrite Hget, Hs. apply orb_true_r. }
  split; [assumption|].
  eexists. rewrite !(deduplicate_list _ _ _ remote) by assumption.
  split; [reflexivity|].
  assert (Hout : List.filter truthy
                   (map (Document.clean_item remote) (pre ++ JDict d :: post))
                 = List.filter truthy (map (Document.clean_item remote) pre) ++
                   List.filter truthy (map (Document.clean_item remote) post)).
  { rewrite !map_app, !List.filter_app, map_cons, Hempty. reflexivity. }
  split; [exact Hout|]. split.
  - apply user_entry_in_no_output. assumption.
  - rewrite Hout, map_app, List.filter_app. reflexivity.
Qed.

(** C10. De-duplication of a list drops every falsy entry, not only the
    emptied mappings: no entry of the result is falsy, so the empty string,
    the empty list, [None] and [0] do not occur in it; the truthy entries
    that are not mappings all stay. *)
Theorem falsy_entries_removed
    (keys : list string) (items : list json)
    (context : option (gmap string json)) (remote : gmap string json) :
  Document.remote_context keys context = Ok remote →
  ∃ out,
    Document._deduplicate_context keys (JList items) context = Ok (JList out) ∧
    (∀ x, In x out → truthy x = true) ∧
    ¬ In (JStr "") out ∧ ¬ In (JList []) out ∧ ¬ In JNull out ∧
    ¬ In (JNum 0) out ∧ ¬ In (JBool false) out ∧ ¬ In (JDict []) out ∧
    (∀ x, In x items → truthy x = true → (∀ d, x ≠ JDict d) → In x out).
Proof.
  intros Hr. eexists. rewrite (deduplicate_list _ _ _ remote) by assumption.
  split; [reflexivity|].
  assert (Htruthy : ∀ x,
    In x (List.filter truthy (map (Document.clean_item remote) items)) →
    truthy x = true).
  { intros x Hx. apply filter_In in Hx. tauto. }
  split; [exact Htruthy|].
  repeat split;
    try (intros Hx; apply Htruthy in Hx; simpl in Hx; discriminate).
  intros x Hx Ht Hnd. apply filter_In. split; [|assumption].
  apply in_map_iff. exists x. split; [|assumption].
  destruct x; try reflexivity. exfalso. eapply Hnd. reflexivity.
Qed.

(** C9. De-duplication is idempotent: when it returns [out], applying it to
    [out] against the same cache returns [out] again.  This holds both when
    the second application uses the same [self.remote_context_keys] and when
    the keys are taken afresh from the string entries of [out], the way
    [__init__] takes them. *)
Theorem deduplicate_idempotent
    (keys : list string) (user_context out : json)
    (context : option (gmap string json)) :
  Document._deduplicate_context keys user_context context = Ok out →
  Document._deduplicate_context keys out context = Ok out ∧
  (Document.remote_context_keys user_context = Ok keys →
   ∃ keys', Document.remote_context_keys out = Ok keys' ∧
            Document._deduplicate_context keys' out context = Ok out).
Proof.
  intros Hd.
  assert (Hshape : (∃ items, user_context = JList items) ∨
                   (∀ xs, user_context ≠ JList xs))
    by (destruct user_context; eauto; right; discriminate).
  destruct Hshape as [[items ->]|Hnl].
  - destruct (Document.remote_context keys context) as [remote|e] eqn:Hr.
    2:{ unfold Document._deduplicate_context in Hd. rewrite Hr in Hd.
        discriminate. }
    rewrite (deduplicate_list _ _ _ remote) in Hd by assumption.
    injection Hd as <-. split.
    + rewrite (deduplicate_list _ _ _ remote) by assumption.
      rewrite clean_item_truthy_filter; auto.
    + intros Hkeys. rewrite remote_context_keys_list in Hkeys.
      injection Hkeys as <-. eexists.
      rewrite remote_context_keys_list. split; [reflexivity|].
      rewrite keys_of_output.
      destruct (remote_context_fewer_keys
                  (fun s => negb (String.eqb s "")) _ _ _ Hr)
        as (remote' & Hr' & Hsub).
      rewrite (deduplicate_list _ _ _ remote') by assumption.
      rewrite clean_item_truthy_filter; auto.
  - assert (out = user_context) as ->.
    { eapply deduplicate_not_list; eassumption. }
    split; [assumption|]. eauto.
Qed.

(** ** The trailing markers *)

Section Markers.

Implicit Types (xs : list json) (m : dict).

(** Lines 97-101 on a list: the base goes into a trailing mapping, and
    into a new trailing mapping when there is none. *)
Lemma with_base_list u xs :
  Document.with_base u (JList xs)
  = Ok (JList
      match last xs with
      | Some (JDict m) =>
          removelast xs ++ [JDict (PyDict.set "@base" (JStr (u +:+ "#")) m)]
      | _ => xs ++ [JDict [("@base", JStr (u +:+ "#"))]]
      end).
Proof.
  unfold Document.with_base, set_last_item, py_last.
  destruct (last xs) as [[| | | | |m]|]; reflexivity.
Qed.

(** Lines 104-108 on a list. *)
Lemma with_vocab_list v xs :
  Document.with_vocab v (JList xs)
  = Ok (JList
      match last xs with
      | Some (JDict m) =>
          if PyDict.mem "@vocab" m then xs
          else removelast xs ++ [JDict (PyDict.set "@vocab" (JStr v) m)]
      | Some (JList ys) =>
          if existsb (fun y => py_eq (JStr "@vocab") y) ys then xs
          else xs ++ [JDict [("@vocab", JStr v)]]
      | Some (JStr s) =>
          if str_contains "@vocab" s then xs
          else xs ++ [JDict [("@vocab", JStr v)]]
      | _ => xs ++ [JDict [("@vocab", JStr v)]]
      end).
Proof.
  unfold Document.with_vocab, set_last_item, py_last.
  destruct (last xs) as [[| | |s|ys|m]|]; simpl; try reflexivity.
  - destruct (str_contains "@vocab" s); reflexivity.
  - destruct (existsb _ ys); reflexivity.
  - destruct (PyDict.mem "@vocab" m); reflexivity.
Qed.

(** A first element that is not a mapping stays first under both markers. *)
Lemma with_base_head u (a : json) xs :
  (∀ m, a ≠ JDict m) →
  ∃ xs', Document.with_base u (JList (a :: xs)) = Ok (JList (a :: xs')).
Proof.
  intros Ha. rewrite with_base_list.
  destruct (last (a :: xs)) as [[| | | | |m]|] eqn:E;
    try (eexists; simpl; reflexivity).
  destruct xs as [|b xs].
  - simpl in E. injection E as ->. exfalso. eapply Ha. reflexivity.
  - eexists. reflexivity.
Qed.

Lemma with_vocab_head v (a : json) xs :
  (∀ m, a ≠ JDict m) →
  ∃ xs', Document.with_vocab v (JList (a :: xs)) = Ok (JList (a :: xs')).
Proof.
  intros Ha. rewrite with_vocab_list.
  destruct (last (a :: xs)) as [[| | |s|ys|m]|] eqn:E;
    try (eexists; simpl; reflexivity).
  - destruct (str_contains "@vocab" s); eexists; simpl; reflexivity.
  - destruct (existsb _ ys); eexists; simpl; reflexivity.
  - destruct (PyDict.mem "@vocab" m); [eexists; reflexivity|].
    destruct xs as [|b xs].
    + simpl in E. injection E as ->. exfalso. eapply Ha. reflexivity.
    + eexists. reflexivity.
Qed.

End Markers.

(** ** The stages of [__init__] *)

(** The ['@context'] of the document is the context as the two marker blocks
    leave it: the content that is merged in has had its ['@context']
    popped. *)
Lemma init_stages content uri context vocab (uc c0 c1 c2 : json) keys :
  PyDict.get "@context" content = Some uc →
  Document.remote_context_keys uc = Ok keys →
  Document._deduplicate_context keys uc context = Ok c0 →
  Document.base_marker uri c0 = Ok c1 →
  Document.vocab_marker vocab c1 = Ok c2 →
  ∃ doc, Document.__init__ content uri context vocab = Ok doc ∧
         PyDict.get "@context" doc = Some c2.
Proof.
  intros Huc Hkeys Hd Hb Hv. unfold Document.__init__. simpl.
  rewrite Huc. simpl. rewrite Hkeys. simpl. rewrite Hd. simpl.
  rewrite Hb. simpl. rewrite Hv. simpl.
  eexists. split; [reflexivity|].
  rewrite get_update_absent by apply get_pop_eq. reflexivity.
Qed.

Lemma init_stages_inv content uri context vocab doc :
  Document.__init__ content uri context vocab = Ok doc →
  ∃ (uc c0 c1 c2 : json) keys,
    PyDict.get "@context" content = Some uc ∧
    Document.remote_context_keys uc = Ok keys ∧
    Document._deduplicate_context keys uc context = Ok c0 ∧
    Document.base_marker uri c0 = Ok c1 ∧
    Document.vocab_marker vocab c1 = Ok c2 ∧
    PyDict.get "@context" doc = Some c2.
Proof.
  unfold Document.__init__. simpl.
  destruct (PyDict.get "@context" content) as [uc|] eqn:Huc; simpl; [|discriminate].
  destruct (Document.remote_context_keys uc) as [keys|] eqn:Hkeys; simpl; [|discriminate].
  destruct (Document._deduplicate_context keys uc context) as [c0|] eqn:Hd;
    simpl; [|discriminate].
  destruct (Document.base_marker uri c0) as [c1|] eqn:Hb; simpl; [|discriminate].
  destruct (Document.vocab_marker vocab c1) as [c2|] eqn:Hv; simpl; [|discriminate].
  intros [= <-]. exists uc, c0, c1, c2, keys. repeat split; try assumption.
  rewrite get_update_absent by apply get_pop_eq. reflexivity.
Qed.

(** * The claims about [__init__] *)

(** C1, as the code has it.  [__init__] does not add the ontology URI: it
    keeps it.  When the ['@context'] of the content tree is a list that
    starts with the canonical ontology URI, which is how the template
    transform hands it over, the ['@context'] of the document is a list
    that starts with it, whatever the rest, the uri, the cache and the
    vocab. *)
Theorem canonical_uri_stays_first
    (content : dict) (rest : list json) (uri vocab : option string)
    (context : option (gmap string json))
    (keys : list string) (remote : gmap string json) :
  PyDict.get "@context" content
    = Some (JList (JStr Document.CANONICAL_URI :: rest)) →
  Document.remote_context_keys (JList (JStr Document.CANONICAL_URI :: rest))
    = Ok keys →
  Document.remote_context keys context = Ok remote →
  ∃ doc rest',
    Document.__init__ content uri context vocab = Ok doc ∧
    PyDict.get "@context" doc
      = Some (JList (JStr Document.CANONICAL_URI :: rest')).
Proof.
  intros Huc Hkeys Hr.
  assert (Hnd : ∀ m, JStr Document.CANONICAL_URI ≠ JDict m) by discriminate.
  pose proof (deduplicate_list keys (JStr Document.CANONICAL_URI :: rest)
                context remote Hr) as Hd.
  simpl in Hd.
  set (r0 := List.filter truthy (map (Document.clean_item remote) rest)) in Hd.
  assert (Hb : ∃ r1, Document.base_marker uri
                       (JList (JStr Document.CANONICAL_URI :: r0))
                     = Ok (JList (JStr Document.CANONICAL_URI :: r1))).
  { unfold Document.base_marker. destruct (Document.supplied uri) as [u|].
    - apply with_base_head. assumption.
    - eauto. }
  destruct Hb as [r1 Hb].
  assert (Hv : ∃ r2, Document.vocab_marker vocab
                       (JList (JStr Document.CANONICAL_URI :: r1))
                     = Ok (JList (JStr Document.CANONICAL_URI :: r2))).
  { unfold Document.vocab_marker. destruct (Document.supplied vocab) as [v|].
    - apply with_vocab_head. assumption.
    - eauto. }
  destruct Hv as [r2 Hv].
  destruct (init_stages _ _ _ _ _ _ _ _ _ Huc Hkeys Hd Hb Hv) as (doc & Hdoc & Hget).
  eauto.
Qed.

(** C5, as the code has it.  Let [xs] be the context assembled before the
    vocab block, which is the ['@context'] of the document built from the
    same arguments without a vocab.  With a vocab supplied: a trailing
    mapping of [xs] that does not define ['@vocab'] gets it; a trailing
    mapping that defines ['@vocab'] already keeps its own, and the context
    is left as it is; when [xs] is empty or ends in [None], a number or a
    boolean, or in a string or a list in which ['@vocab'] does not occur, a
    new mapping with the vocab is appended. *)
Theorem vocab_marker_placement
    (content : dict) (uri : option string)
    (context : option (gmap string json)) (v : string)
    (doc0 : dict) (xs : list json) :
  v ≠ "" →
  Document.__init__ content uri context None = Ok doc0 →
  PyDict.get "@context" doc0 = Some (JList xs) →
  ∃ doc ctx,
    Document.__init__ content uri context (Some v) = Ok doc ∧
    PyDict.get "@context" doc = Some (JList ctx) ∧
    match last xs with
    | Some (JDict m) =>
        if PyDict.mem "@vocab" m then ctx = xs
        else ctx = removelast xs ++ [JDict (PyDict.set "@vocab" (JStr v) m)]
    | Some (JStr s) =>
        str_contains "@vocab" s = false → ctx = xs ++ [JDict [("@vocab", JStr v)]]
    | Some (JList ys) =>
        existsb (fun y => py_eq (JStr "@vocab") y) ys = false →
        ctx = xs ++ [JDict [("@vocab", JStr v)]]
    | _ => ctx = xs ++ [JDict [("@vocab", JStr v)]]
    end.
Proof.
  intros Hv H0 Hget0.
  apply init_stages_inv in H0
    as (uc & c0 & c1 & c2 & keys & Huc & Hkeys & Hd & Hb & Hvm & Hget).
  unfold Document.vocab_marker in Hvm. simpl in Hvm. injection Hvm as <-.
  rewrite Hget in Hget0. injection Hget0 as ->.
  assert (Hsup : Document.supplied (Some v) = Some v).
  { simpl. destruct (String.eqb v "") eqn:E; [|reflexivity].
    apply String.eqb_eq in E. contradiction. }
  assert (Hvm : Document.vocab_marker (Some v) (JList xs)
                = Document.with_vocab v (JList xs)).
  { unfold Document.vocab_marker. rewrite Hsup. reflexivity. }
  rewrite with_vocab_list in Hvm.
  destruct (init_stages _ _ _ _ _ _ _ _ _ Huc Hkeys Hd Hb Hvm)
    as (doc & Hdoc & Hgetdoc).
  exists doc. eexists. split; [exact Hdoc|]. split; [exact Hgetdoc|].
  destruct (last xs) as [[| | |s|ys|m]|]; try reflexivity.
  - intros ->. reflexivity.
  - intros ->. reflexivity.
  - destruct (PyDict.mem "@vocab" m); reflexivity.
Qed.

(** C6, as the code has it.  With a uri and a vocab supplied, and a
    de-duplicated local context that does not end in a mapping with
    ['@base'] or ['@vocab'], the ['@context'] of the document ends in one
    mapping that holds both ['@base'], equal to the uri followed by [#],
    and ['@vocab'], equal to the vocab.  No second mapping is made: what
    precedes that mapping is the de-duplicated context, whose trailing
    mapping, if it ends in one, is the one that received both fields.  When
    no mapping entry of the local context defines ['@base'] or ['@vocab'],
    this trailing mapping is the only entry of the ['@context'] that
    defines either. *)
Theorem single_trailing_marker
    (content : dict) (items out : list json) (u v : string)
    (context : option (gmap string json)) (keys : list string) :
  u ≠ "" → v ≠ "" →
  PyDict.get "@context" content = Some (JList items) →
  Document.remote_context_keys (JList items) = Ok keys →
  Document._deduplicate_context keys (JList items) context = Ok (JList out) →
  (∀ m, last out = Some (JDict m) →
        PyDict.mem "@base" m = false ∧ PyDict.mem "@vocab" m = false) →
  ∃ doc ys m,
    Document.__init__ content (Some u) context (Some v) = Ok doc ∧
    PyDict.get "@context" doc = Some (JList (ys ++ [JDict m])) ∧
    PyDict.get "@base" m = Some (JStr (u +:+ "#")) ∧
    PyDict.get "@vocab" m = Some (JStr v) ∧
    (ys = out ∨ ∃ m0, out = ys ++ [JDict m0]) ∧
    ((∀ m', In (JDict m') items →
            PyDict.mem "@base" m' = false ∧ PyDict.mem "@vocab" m' = false) →
     ∀ m', In (JDict m') ys →
           PyDict.mem "@base" m' = false ∧ PyDict.mem "@vocab" m' = false).
Proof.
  intros Hu Hv Huc Hkeys Hd Hlast.
  assert (Hout : (∀ m, In (JDict m) items →
            PyDict.mem "@base" m = false ∧ PyDict.mem "@vocab" m = false) →
          ∀ m, In (JDict m) out →
            PyDict.mem "@base" m = false ∧ PyDict.mem "@vocab" m = false).
  { intros Hfree m Hin.
    destruct (Document.remote_context keys context) as [remote|e] eqn:Hr.
    2:{ unfold Document._deduplicate_context in Hd. rewrite Hr in Hd.
        discriminate. }
    rewrite (deduplicate_list _ _ _ remote) in Hd by assumption.
    injection Hd as <-.
    apply filter_In in Hin as [Hin _].
    apply in_map_iff in Hin as (x & Hx & Hin).
    destruct x as [| | | | |d]; try discriminate.
    rewrite clean_item_dict in Hx. injection Hx as <-.
    destruct (Hfree d Hin) as [Hb Hvc].
    split; apply not_true_is_false; intros Hm; apply mem_filter in Hm; congruence. }
  assert (Hsu : Document.supplied (Some u) = Some u).
  { simpl. destruct (String.eqb u "") eqn:E; [|reflexivity].
    apply String.eqb_eq in E. contradiction. }
  assert (Hsv : Document.supplied (Some v) = Some v).
  { simpl. destruct (String.eqb v "") eqn:E; [|reflexivity].
    apply String.eqb_eq in E. contradiction. }
  assert (Hshape : ∃ ys m,
    (c1 ← Document.base_marker (Some u) (JList out);
     Document.vocab_marker (Some v) c1) = Ok (JList (ys ++ [JDict m])) ∧
    PyDict.get "@base" m = Some (JStr (u +:+ "#")) ∧
    PyDict.get "@vocab" m = Some (JStr v) ∧
    (ys = out ∨ ∃ m0, out = ys ++ [JDict m0])).
  { unfold Document.base_marker, Document.vocab_marker. rewrite Hsu, Hsv.
    rewrite with_base_list.
    assert (Hfresh : ∀ zs : list json,
      ∃ ys m,
        (c1 ← Ok (JList (zs ++ [JDict [("@base", JStr (u +:+ "#"))]]));
         Document.with_vocab v c1) = Ok (JList (ys ++ [JDict m])) ∧
        PyDict.get "@base" m = Some (JStr (u +:+ "#")) ∧
        PyDict.get "@vocab" m = Some (JStr v) ∧
        (ys = zs ∨ ∃ m0, zs = ys ++ [JDict m0])).
    { intros zs. simpl. rewrite with_vocab_list, last_snoc. simpl.
      rewrite removelast_last. exists zs. eexists.
      split; [reflexivity|]. repeat split; try reflexivity. left. reflexivity. }
    destruct out as [|x out' _] using rev_ind.
    - apply (Hfresh []).
    - rewrite last_snoc.
      destruct x as [| | | | |m0]; try apply Hfresh.
      rewrite removelast_last. simpl.
      rewrite with_vocab_list, last_snoc.
      destruct (Hlast m0) as [Hb0 Hv0]; [apply last_snoc|].
      assert (Hm : PyDict.mem "@vocab"
                     (PyDict.set "@base" (JStr (u +:+ "#")) m0) = false).
      { unfold PyDict.mem in *. rewrite get_set_ne by discriminate. assumption. }
      rewrite Hm, removelast_last.
      exists out'. eexists. split; [reflexivity|]. repeat split.
      + rewrite get_set_ne by discriminate. apply get_set_eq.
      + apply get_set_eq.
      + right. eauto. }
  destruct Hshape as (ys & m & Hm & Hbase & Hvocab & Hys).
  destruct (Document.base_marker (Some u) (JList out)) as [c1|] eqn:Hb;
    simpl in Hm; [|discriminate].
  destruct (init_stages _ _ _ _ _ _ _ _ _ Huc Hkeys Hd Hb Hm)
    as (doc & Hdoc & Hget).
  exists doc, ys, m. repeat (split; [assumption|]).
  intros Hfree m' Hin. apply (Hout Hfree).
  destruct Hys as [->|[m0 ->]]; [assumption|].
  apply in_or_app. left. assumption.
Qed.

(** C1, as stated, fails.  For the content tree
    [{"@context": [{"Book": "https://schema.org/Book"}], "type": "Book"}],
    without uri, cache or vocab, the document is the content tree itself:
    its ['@context'] starts with the mapping, not with the ontology URI. *)
Lemma canonical_uri_not_added :
  ∃ doc,
    Document.__init__
      [("@context", JList [JDict [("Book", JStr "https://schema.org/Book")]]);
       ("type", JStr "Book")] None None None = Ok doc ∧
    PyDict.get "@context" doc
      = Some (JList [JDict [("Book", JStr "https://schema.org/Book")]]) ∧
    ¬ ∃ rest, PyDict.get "@context" doc
              = Some (JList (JStr Document.CANONICAL_URI :: rest)).
Proof.
  eexists. split; [vm_compute; reflexivity|].
  split; [reflexivity|]. intros [rest H]. discriminate H.
Qed.

(** C3, as stated, fails.  For the content tree
    [{"@context": ["https://example.org/ctx"], "birthPlace": {"_label":
    "Leytonstone"}}] and the cache that defines [birthPlace] under that URL,
    the ['@context'] of the document is [["https://example.org/ctx"]]: the
    string entry is kept. *)
Lemma string_entry_not_dropped :
  ∃ doc ctx,
    Document.__init__
      [("@context", JList [JStr example_ctx]);
       ("birthPlace", JDict [("_label", JStr "Leytonstone")])]
      None (Some example_cache) None = Ok doc ∧
    PyDict.get "@context" doc = Some (JList ctx) ∧
    ¬ (¬ In (JStr example_ctx) ctx ∧
       ∀ m, In (JDict m) ctx → PyDict.mem "birthPlace" m = false).
Proof.
  eexists. eexists. split; [vm_compute; reflexivity|].
  split; [reflexivity|]. intros [Hno _]. apply Hno. left. reflexivity.
Qed.

(** C3, as the code has it.  In that scenario, whatever the value of
    [birthPlace], the uri and the vocab, the string entry
    ["https://example.org/ctx"] is an entry of the ['@context'] of the
    document, and no mapping entry of it defines [birthPlace]. *)
Theorem remote_reference_kept
    (birthPlace : json) (uri vocab : option string) :
  ∃ doc ctx,
    Document.__init__
      [("@context", JList [JStr example_ctx]); ("birthPlace", birthPlace)]
      uri (Some example_cache) vocab = Ok doc ∧
    PyDict.get "@context" doc = Some (JList ctx) ∧
    In (JStr example_ctx) ctx ∧
    ∀ m, In (JDict m) ctx → PyDict.mem "birthPlace" m = false.
Proof.
  assert (Hd : Document._deduplicate_context [example_ctx]
                 (JList [JStr example_ctx]) (Some example_cache)
               = Ok (JList [JStr example_ctx]))
    by (vm_compute; reflexivity).
  assert (Hmarkers : ∃ ctx,
    (c1 ← Document.base_marker uri (JList [JStr example_ctx]);
     Document.vocab_marker vocab c1) = Ok (JList ctx) ∧
    In (JStr example_ctx) ctx ∧
    ∀ m, In (JDict m) ctx → PyDict.mem "birthPlace" m = false).
  { unfold Document.base_marker, Document.vocab_marker.
    destruct (Document.supplied uri) as [u|];
      destruct (Document.supplied vocab) as [v|]; simpl;
      rewrite ?with_base_list; simpl; rewrite ?with_vocab_list; simpl;
      eexists; (split; [reflexivity|]); (split; [left; reflexivity|]);
      intros m Hin; simpl in Hin;
      repeat (destruct Hin as [Hin|Hin]; [try discriminate Hin|]);
      try contradiction;
      injection Hin as <-; reflexivity. }
  destruct Hmarkers as (ctx & Hm & Hin & Hfree).
  destruct (Document.base_marker uri (JList [JStr example_ctx])) as [c1|] eqn:Hb;
    simpl in Hm; [|discriminate].
  destruct (init_stages
              [("@context", JList [JStr example_ctx]); ("birthPlace", birthPlace)]
              uri (Some example_cache) vocab _ _ _ _ [example_ctx]
              eq_refl eq_refl Hd Hb Hm) as (doc & Hdoc & Hget).
  exists doc, ctx. auto.
Qed.

(** C4, on the code.  A ['@context'] that is [None] or a number makes
    [__init__] raise [TypeError] (line 128 iterates it; only the
    comprehension of line 88 is guarded), and a content tree without
    ['@context'] makes it raise [KeyError] (line 86). *)
Theorem malformed_context_raises :
  Document.__init__ [("@context", JNull); ("_label", JStr "a")] None None None
    = Raise TypeError ∧
  Document.__init__ [("@context", JNum 7); ("_label", JStr "a")] None None None
    = Raise TypeError ∧
  Document.__init__ [("_label", JStr "a")] None None None = Raise KeyError.
Proof. repeat split; vm_compute; reflexivity. Qed.

(** C5, as stated, fails.  The trailing mapping of the local context defines
    ['@vocab'] already; with another vocab supplied, nothing is appended and
    the supplied vocab is nowhere in the ['@context'] of the document. *)
Lemma existing_vocab_kept_example :
  ∃ doc,
    Document.__init__
      [("@context", JList [JStr Document.CANONICAL_URI;
                           JDict [("@vocab", JStr "http://a.example/")]])]
      None None (Some "http://b.example/") = Ok doc ∧
    PyDict.get "@context" doc
      = Some (JList [JStr Document.CANONICAL_URI;
                     JDict [("@vocab", JStr "http://a.example/")]]) ∧
    PyDict.get "@context" doc
      ≠ Some (JList [JStr Document.CANONICAL_URI;
                     JDict [("@vocab", JStr "http://a.example/")];
                     JDict [("@vocab", JStr "http://b.example/")]]).
Proof.
  eexists. split; [vm_compute; reflexivity|].
  split; [reflexivity|]. discriminate.
Qed.

(** C6, as stated, fails.  The local context
    [[URI, {"@vocab": "http://a.example/"}, {"foo": "user:foo"}]] does not
    end in a marker mapping, but de-duplication drops its last entry, and
    the mapping that then comes last keeps its own ['@vocab']: with the uri
    [u] and the vocab [http://b.example/] the ['@context'] of the document
    ends in a mapping whose ['@vocab'] is not the supplied one. *)
Lemma exposed_vocab_kept_example :
  ∃ doc,
    Document.__init__
      [("@context", JList [JStr Document.CANONICAL_URI;
                           JDict [("@vocab", JStr "http://a.example/")];
                           JDict [("foo", JStr "user:foo")]])]
      (Some "u") None (Some "http://b.example/") = Ok doc ∧
    PyDict.get "@context" doc
      = Some (JList [JStr Document.CANONICAL_URI;
                     JDict [("@vocab", JStr "http://a.example/");
                            ("@base", JStr "u#")]]) ∧
    ¬ ∃ ys m,
        PyDict.get "@context" doc = Some (JList (ys ++ [JDict m])) ∧
        PyDict.get "@base" m = Some (JStr "u#") ∧
        PyDict.get "@vocab" m = Some (JStr "http://b.example/").
Proof.
  eexists. split; [vm_compute; reflexivity|].
  split; [reflexivity|].
  intros (ys & m & Hctx & _ & Hvocab).
  injection Hctx as Hctx.
  apply (app_inj_tail [JStr Document.CANONICAL_URI] ys
           (JDict [("@vocab", JStr "http://a.example/"); ("@base", JStr "u#")])
           (JDict m)) in Hctx as [_ Hm].
  injection Hm as <-. discriminate Hvocab.
Qed.

(** * The claim about [framed] *)

(** C7, on the code.  [framed] writes the ontology context into index 0 of
    the document's own context array (line 161) and later writes the URI
    back into index 0 of the array of the framed result (line 168).  When
    the library returns its result in an array of its own and leaves the
    document's array alone, the document keeps the ontology context as its
    first context element: it is not what it was before [framed]. *)
Theorem framed_mutates_document
    (ontology : json)
    (jsonld_frame : Framing.obj → Framing.obj → Framing.M Framing.obj)
    (dump : gmap positive (list json) → Framing.obj → string)
    (h h2 : gmap positive (list json)) (doc fr : Framing.obj)
    (rest : list json) (id : json) (body : dict) (y : json) (ys : list json) :
  h !! Framing.obj_context doc = Some (JStr Document.CANONICAL_URI :: rest) →
  PyDict.get "id" (Framing.obj_fields doc) = Some id →
  py_getitem ontology "@context" = Ok (JDict body) →
  jsonld_frame doc
    {| Framing.obj_context := Framing.obj_context doc;
       Framing.obj_fields := [("@embed", JStr "@always"); ("@id", id)] |}
    (<[Framing.obj_context doc := JDict body :: rest]> h) = (h2, Ok fr) →
  h2 !! Framing.obj_context doc = Some (JDict body :: rest) →
  Framing.obj_context fr ≠ Framing.obj_context doc →
  h2 !! Framing.obj_context fr = Some (y :: ys) →
  ∃ h3 s,
    Framing.framed ontology jsonld_frame dump doc h = (h3, Ok s) ∧
    Framing.view h3 doc
      = Some (("@context", JList (JDict body :: rest)) :: Framing.obj_fields doc) ∧
    Framing.view h3 doc ≠ Framing.view h doc.
Proof.
  intros Hctx Hid Hont Hlib Hkept Hfresh Hfr.
  unfold Framing.framed, Framing.seq, Framing.pure.
  rewrite Hont. unfold Framing.list_setitem at 1. rewrite Hctx. simpl.
  rewrite Hid. simpl. rewrite Hlib.
  unfold Framing.list_setitem. rewrite Hfr. simpl.
  eexists. eexists. split; [reflexivity|].
  unfold Framing.view.
  rewrite lookup_insert_ne by assumption. rewrite Hkept, Hctx. simpl.
  split; [reflexivity|]. discriminate.
Qed.

(** The document of the class docstring, framed with a library that copies
    the context. *)
Lemma framed_mutates_document_witness :
  ∃ h3 s,
    Framing.framed
      (JDict [("@context",
               JDict [("_label", JStr "http://www.w3.org/2000/01/rdf-schema#label")])])
      Framing.copying_frame (fun _ _ => "")
      {| Framing.obj_context := 1%positive;
         Framing.obj_fields := [("id", JStr "alfred-hitchcock");
                                ("_label", JStr "Alfred Hitchcock")] |}
      {[ 1%positive := [JStr Document.CANONICAL_URI] ]} = (h3, Ok s) ∧
    Framing.view h3
      {| Framing.obj_context := 1%positive;
         Framing.obj_fields := [("id", JStr "alfred-hitchcock");
                                ("_label", JStr "Alfred Hitchcock")] |}
      = Some (("@context",
               JList [JDict [("_label",
                              JStr "http://www.w3.org/2000/01/rdf-schema#label")]])
              :: [("id", JStr "alfred-hitchcock");
                  ("_label", JStr "Alfred Hitchcock")]) ∧
    Framing.view h3
      {| Framing.obj_context := 1%positive;
         Framing.obj_fields := [("id", JStr "alfred-hitchcock");
                                ("_label", JStr "Alfred Hitchcock")] |}
      ≠ Framing.view {[ 1%positive := [JStr Document.CANONICAL_URI] ]}
          {| Framing.obj_context := 1%positive;
             Framing.obj_fields := [("id", JStr "alfred-hitchcock");
                                    ("_label", JStr "Alfred Hitchcock")] |}.
Proof.
  eapply (framed_mutates_document _ Framing.copying_frame (fun _ _ => "")
            {[ 1%positive := [JStr Document.CANONICAL_URI] ]} _
            {| Framing.obj_context := 1%positive;
               Framing.obj_fields := [("id", JStr "alfred-hitchcock");
                                      ("_label", JStr "Alfred Hitchcock")] |}
            _ [] (JStr "alfred-hitchcock")).
  - reflexivity.
  - reflexivity.
  - reflexivity.
  - vm_compute. reflexivity.
  - vm_compute. reflexivity.
  - vm_compute. discriminate.
  - vm_compute. reflexivity.
Defined.

(** * The theorems at concrete inputs *)

(** A content tree as the template transform hands it over, with a uri
    and a vocab. *)
Lemma canonical_uri_stays_first_witness :
  ∃ doc rest',
    Document.__init__
      [("@context", JList [JStr Document.CANONICAL_URI; book_entry]);
       ("_label", JStr "Tortilla Flat")]
      (Some "tortilla-flat") None (Some "https://schema.org/") = Ok doc ∧
    PyDict.get "@context" doc
      = Some (JList (JStr Document.CANONICAL_URI :: rest')).
Proof.
  apply (canonical_uri_stays_first
           [("@context", JList [JStr Document.CANONICAL_URI; book_entry]);
            ("_label", JStr "Tortilla Flat")]
           [book_entry] (Some "tortilla-flat") (Some "https://schema.org/") None
           [Document.CANONICAL_URI] ∅).
  - reflexivity.
  - reflexivity.
  - reflexivity.
Defined.

(** [birthPlace] redeclared under a cached remote context. *)
Lemma sole_remote_key_entry_absent_witness :
  Document.clean_item
    {[ "birthPlace" := JDict [("@id", JStr "https://schema.org/birthPlace")] ]}
    (JDict [("birthPlace", JStr "https://schema.org/birthPlace")]) = JDict [] ∧
  ∃ out,
    Document._deduplicate_context [example_ctx]
      (JList ([JStr example_ctx] ++
              JDict [("birthPlace", JStr "https://schema.org/birthPlace")]
              :: [book_entry]))
      (Some example_cache) = Ok (JList out) ∧
    out = List.filter truthy
            (map (Document.clean_item
                    {[ "birthPlace" :=
                         JDict [("@id", JStr "https://schema.org/birthPlace")] ]})
                 [JStr example_ctx]) ++
          List.filter truthy
            (map (Document.clean_item
                    {[ "birthPlace" :=
                         JDict [("@id", JStr "https://schema.org/birthPlace")] ]})
                 [book_entry]) ∧
    ¬ In (JDict [("birthPlace", JStr "https://schema.org/birthPlace")]) out ∧
    (∀ m, In (JDict m) out → PyDict.mem "birthPlace" m = false) ∧
    Document._deduplicate_context [example_ctx]
      (JList ([JStr example_ctx] ++ [book_entry])) (Some example_cache)
      = Ok (JList out).
Proof.
  apply (sole_remote_key_entry_absent
           [JStr example_ctx] [book_entry]
           "birthPlace" (JStr "https://schema.org/birthPlace")
           [example_ctx] example_cache
           {[ "birthPlace" := JDict [("@id", JStr "https://schema.org/birthPlace")] ]}
           example_ctx
           [("@context",
             JDict [("birthPlace",
                     JDict [("@id", JStr "https://schema.org/birthPlace")])])]
           [("birthPlace", JDict [("@id", JStr "https://schema.org/birthPlace")])]
           (JDict [("@id", JStr "https://schema.org/birthPlace")])).
  - simpl. left. reflexivity.
  - vm_compute. reflexivity.
  - reflexivity.
  - reflexivity.
  - reflexivity.
  - vm_compute. reflexivity.
Defined.

(** A mapping entry with two [user:] terms between two other entries. *)
Lemma user_prefixed_entry_removed_witness :
  Document.clean_item ∅
    (JDict [("nickname", JStr "user:nickname"); ("rank", JStr "user:rank")])
    = JDict [] ∧
  ∃ out,
    Document._deduplicate_context []
      (JList ([JStr Document.CANONICAL_URI] ++
              JDict [("nickname", JStr "user:nickname"); ("rank", JStr "user:rank")]
              :: [book_entry])) None = Ok (JList out) ∧
    out = List.filter truthy
            (map (Document.clean_item ∅) [JStr Document.CANONICAL_URI]) ++
          List.filter truthy (map (Document.clean_item ∅) [book_entry]) ∧
    ¬ In (JDict [("nickname", JStr "user:nickname"); ("rank", JStr "user:rank")])
         out ∧
    Document._deduplicate_context []
      (JList ([JStr Document.CANONICAL_URI] ++ [book_entry])) None
      = Ok (JList out).
Proof.
  apply (user_prefixed_entry_removed [] [JStr Document.CANONICAL_URI] [book_entry]
           [("nickname", JStr "user:nickname"); ("rank", JStr "user:rank")]
           None ∅).
  - intros k v Hin. simpl in Hin.
    destruct Hin as [Hin|[Hin|[]]]; injection Hin as <- <-;
      eexists; split; reflexivity.
  - reflexivity.
Defined.

(** A local context with four falsy entries. *)
Lemma falsy_entries_removed_witness :
  ∃ out,
    Document._deduplicate_context []
      (JList [JStr ""; JStr Document.CANONICAL_URI; JList []; JNull; JNum 0;
              book_entry]) None = Ok (JList out) ∧
    (∀ x, In x out → truthy x = true) ∧
    ¬ In (JStr "") out ∧ ¬ In (JList []) out ∧ ¬ In JNull out ∧
    ¬ In (JNum 0) out ∧ ¬ In (JBool false) out ∧ ¬ In (JDict []) out ∧
    (∀ x, In x [JStr ""; JStr Document.CANONICAL_URI; JList []; JNull; JNum 0;
                book_entry] →
          truthy x = true → (∀ d, x ≠ JDict d) → In x out).
Proof.
  apply (falsy_entries_removed []
           [JStr ""; JStr Document.CANONICAL_URI; JList []; JNull; JNum 0;
            book_entry] None ∅).
  reflexivity.
Defined.

(** A local context that loses two entries the first time. *)
Lemma deduplicate_idempotent_witness :
  Document._deduplicate_context [example_ctx]
    (JList [JStr example_ctx; book_entry]) (Some example_cache)
    = Ok (JList [JStr example_ctx; book_entry]) ∧
  (Document.remote_context_keys
     (JList [JStr example_ctx;
             JDict [("birthPlace", JStr "https://schema.org/birthPlace")];
             JStr ""; book_entry]) = Ok [example_ctx] →
   ∃ keys',
     Document.remote_context_keys (JList [JStr example_ctx; book_entry])
       = Ok keys' ∧
     Document._deduplicate_context keys'
       (JList [JStr example_ctx; book_entry]) (Some example_cache)
       = Ok (JList [JStr example_ctx; book_entry])).
Proof.
  apply (deduplicate_idempotent [example_ctx]
           (JList [JStr example_ctx;
                   JDict [("birthPlace", JStr "https://schema.org/birthPlace")];
                   JStr ""; book_entry])
           (JList [JStr example_ctx; book_entry]) (Some example_cache)).
  vm_compute. reflexivity.
Defined.

(** A trailing mapping without ['@vocab'] receives the vocab. *)
Lemma vocab_marker_placement_witness :
  ∃ doc ctx,
    Document.__init__
      [("@context", JList [JStr Document.CANONICAL_URI; book_entry])]
      None None (Some "https://schema.org/") = Ok doc ∧
    PyDict.get "@context" doc = Some (JList ctx) ∧
    ctx = [JStr Document.CANONICAL_URI;
           JDict [("Book", JStr "https://schema.org/Book");
                  ("@vocab", JStr "https://schema.org/")]].
Proof.
  exact (vocab_marker_placement
           [("@context", JList [JStr Document.CANONICAL_URI; book_entry])]
           None None "https://schema.org/"
           [("@context", JList [JStr Document.CANONICAL_URI; book_entry])]
           [JStr Document.CANONICAL_URI; book_entry]
           ltac:(discriminate) eq_refl eq_refl).
Defined.

(** The trailing mapping of the local context receives both fields. *)
Lemma single_trailing_marker_witness :
  ∃ doc ys m,
    Document.__init__
      [("@context", JList [JStr Document.CANONICAL_URI; book_entry]);
       ("_label", JStr "Tortilla Flat")]
      (Some "tortilla-flat") None (Some "https://schema.org/") = Ok doc ∧
    PyDict.get "@context" doc = Some (JList (ys ++ [JDict m])) ∧
    PyDict.get "@base" m = Some (JStr ("tortilla-flat" +:+ "#")) ∧
    PyDict.get "@vocab" m = Some (JStr "https://schema.org/") ∧
    (ys = [JStr Document.CANONICAL_URI; book_entry] ∨
     ∃ m0, [JStr Document.CANONICAL_URI; book_entry] = ys ++ [JDict m0]) ∧
    ((∀ m', In (JDict m') [JStr Document.CANONICAL_URI; book_entry] →
            PyDict.mem "@base" m' = false ∧ PyDict.mem "@vocab" m' = false) →
     ∀ m', In (JDict m') ys →
           PyDict.mem "@base" m' = false ∧ PyDict.mem "@vocab" m' = false).
Proof.
  apply (single_trailing_marker
           [("@context", JList [JStr Document.CANONICAL_URI; book_entry]);
            ("_label", JStr "Tortilla Flat")]
           [JStr Document.CANONICAL_URI; book_entry]
           [JStr Document.CANONICAL_URI; book_entry]
           "tortilla-flat" "https://schema.org/" None
           [Document.CANONICAL_URI]).
  - discriminate.
  - discriminate.
  - reflexivity.
  - reflexivity.
  - reflexivity.
  - intros m Hlast. simpl in Hlast. injection Hlast as <-. split; reflexivity.
Defined.

(** * Further properties of [Document.__init__] *)

(** ** Keys of dicts *)

Section DictKeys.

Implicit Types (k : string) (v : json) (d : dict).

Lemma get_None_keys k d : PyDict.get k d = None ↔ ¬ In k (PyDict.keys d).
Proof.
  unfold PyDict.keys. induction d as [|[k' v'] d IH]; simpl; [tauto|].
  destruct (String.eqb k k') eqn:E.
  - apply String.eqb_eq in E. subst k'. split; [discriminate|]. tauto.
  - rewrite IH. apply String.eqb_neq in E. split; [|tauto].
    intros Hn [->|Hin]; tauto.
Qed.

Lemma mem_keys k d : PyDict.mem k d = true ↔ In k (PyDict.keys d).
Proof.
  unfold PyDict.mem. destruct (PyDict.get k d) as [v|] eqn:E.
  - split; [intros _|reflexivity].
    apply get_Some_In in E. unfold PyDict.keys. apply in_map_iff.
    exists (k, v). auto.
  - apply get_None_keys in E. split; [discriminate|contradiction].
Qed.

Lemma keys_pop k d :
  PyDict.keys (PyDict.pop k d)
  = List.filter (fun k' => negb (String.eqb k k')) (PyDict.keys d).
Proof.
  unfold PyDict.keys. induction d as [|[k' v'] d IH]; simpl; [reflexivity|].
  destruct (String.eqb k k'); simpl; congruence.
Qed.

Lemma NoDup_filter_keys (p : string → bool) (ks : list string) :
  NoDup ks → NoDup (List.filter p ks).
Proof.
  induction 1 as [|k ks Hk Hnd IH]; simpl; [constructor|].
  destruct (p k); [|assumption].
  constructor; [|assumption]. intros Hin.
  apply list_elem_of_In, filter_In in Hin. apply Hk, list_elem_of_In. tauto.
Qed.

Lemma keys_set k v d :
  PyDict.keys (PyDict.set k v d)
  = if PyDict.mem k d then PyDict.keys d else PyDict.keys d ++ [k].
Proof.
  unfold PyDict.keys, PyDict.mem.
  induction d as [|[k' v'] d IH]; simpl; [reflexivity|].
  destruct (String.eqb k k'); simpl; [reflexivity|].
  rewrite IH. destruct (PyDict.get k d); reflexivity.
Qed.

Lemma mem_set k k' v d :
  PyDict.mem k' (PyDict.set k v d) = String.eqb k k' || PyDict.mem k' d.
Proof.
  unfold PyDict.mem. destruct (String.eqb k k') eqn:E.
  - apply String.eqb_eq in E. subst k'. rewrite get_set_eq. reflexivity.
  - rewrite get_set_ne; [reflexivity|].
    intros ->. rewrite String.eqb_refl in E. discriminate.
Qed.

Lemma mem_cons k k' v d :
  PyDict.mem k ((k', v) :: d) = String.eqb k k' || PyDict.mem k d.
Proof. unfold PyDict.mem. simpl. destruct (String.eqb k k'); reflexivity. Qed.

(** [d.update(other)]: the keys of [d] keep their places, the new keys of
    [other] follow in the order of [other]. *)
Lemma keys_update d other :
  NoDup (PyDict.keys other) →
  PyDict.keys (PyDict.update d other)
  = PyDict.keys d ++
    List.filter (fun k => negb (PyDict.mem k d)) (PyDict.keys other).
Proof.
  unfold PyDict.update. revert d.
  induction other as [|[k v] other IH]; intros d Hnd; simpl.
  - rewrite app_nil_r. reflexivity.
  - inversion Hnd as [|? ? Hk Hnd']; subst.
    rewrite IH by assumption. rewrite keys_set.
    assert (Hext : List.filter (fun k0 => negb (PyDict.mem k0 (PyDict.set k v d)))
                     (PyDict.keys other)
                   = List.filter (fun k0 => negb (PyDict.mem k0 d))
                       (PyDict.keys other)).
    { apply filter_ext_in. intros k0 Hin. rewrite mem_set.
      destruct (String.eqb k k0) eqn:E; [|reflexivity].
      apply String.eqb_eq in E. subst k0. apply list_elem_of_In in Hin.
      contradiction. }
    rewrite Hext. destruct (PyDict.mem k d); simpl; [reflexivity|].
    rewrite <- app_assoc. reflexivity.
Qed.

(** [d.update(other)]: the values of [other] win. *)
Lemma get_update_present k v d other :
  NoDup (PyDict.keys other) →
  PyDict.get k other = Some v →
  PyDict.get k (PyDict.update d other) = Some v.
Proof.
  unfold PyDict.update. revert d.
  induction other as [|[k0 v0] other IH]; intros d Hnd; simpl; [discriminate|].
  inversion Hnd as [|? ? Hk Hnd']; subst.
  destruct (String.eqb k k0) eqn:E.
  - apply String.eqb_eq in E. subst k0. intros [= ->].
    pose proof (get_update_absent k (PyDict.set k v d) other) as Habs.
    unfold PyDict.update in Habs. rewrite Habs.
    + apply get_set_eq.
    + apply get_None_keys. rewrite <- list_elem_of_In. assumption.
  - intros Hget. apply IH; assumption.
Qed.

End DictKeys.

(** ** The document as a whole *)

(** What [__init__] returns: the scaffold of ['@context'] and ['id'],
    updated with the content. *)
Lemma init_document_inv content uri context vocab doc :
  Document.__init__ content uri context vocab = Ok doc →
  ∃ c : json,
    doc = PyDict.update
            (("@context", c) ::
             match Document.supplied uri with
             | Some u => [("id", JStr u)]
             | None => []
             end)
            (PyDict.pop "@context" content).
Proof.
  unfold Document.__init__. simpl.
  destruct (PyDict.get "@context" content) as [uc|]; simpl; [|discriminate].
  destruct (Document.remote_context_keys uc) as [keys|]; simpl; [|discriminate].
  destruct (Document._deduplicate_context keys uc context) as [c0|];
    simpl; [|discriminate].
  destruct (Document.base_marker uri c0) as [c1|]; simpl; [|discriminate].
  destruct (Document.vocab_marker vocab c1) as [c2|]; simpl; [|discriminate].
  intros [= <-]. eauto.
Qed.

Lemma NoDup_keys_pop k (d : dict) :
  NoDup (PyDict.keys d) → NoDup (PyDict.keys (PyDict.pop k d)).
Proof. intros Hnd. rewrite keys_pop. apply NoDup_filter_keys. assumption. Qed.

(** X1. The keys of the document, in order: ['@context'] first, then ['id']
    when a uri is supplied, then the keys of the content in their order,
    without ['@context'] and, when a uri is supplied, without ['id'] (which
    has its place already). *)
Theorem document_key_order
    (content : dict) (uri vocab : option string)
    (context : option (gmap string json)) (doc : dict) :
  NoDup (PyDict.keys content) →
  Document.__init__ content uri context vocab = Ok doc →
  PyDict.keys doc
  = "@context" ::
    match Document.supplied uri with Some _ => ["id"] | None => [] end ++
    List.filter
      (fun k => negb (String.eqb "@context" k) &&
                negb match Document.supplied uri with
                     | Some _ => String.eqb "id" k
                     | None => false
                     end)
      (PyDict.keys content).
Proof.
  intros Hnd Hdoc. apply init_document_inv in Hdoc as [c ->].
  rewrite keys_update by (apply NoDup_keys_pop; assumption).
  rewrite keys_pop, filter_twice.
  destruct (Document.supplied uri) as [u|].
  - change (PyDict.keys [("@context", c); ("id", JStr u)])
      with ["@context"; "id"].
    cbn [app]. do 2 f_equal. apply filter_ext. intros k.
    rewrite !mem_cons, (String.eqb_sym k "@context"), (String.eqb_sym k "id").
    destruct (String.eqb "@context" k), (String.eqb "id" k); reflexivity.
  - change (PyDict.keys [("@context", c)]) with ["@context"].
    cbn [app]. f_equal. apply filter_ext. intros k.
    rewrite !mem_cons, (String.eqb_sym k "@context").
    destruct (String.eqb "@context" k); reflexivity.
Qed.

Lemma document_key_order_witness :
  PyDict.keys
    [("@context", JList [JStr Document.CANONICAL_URI; book_entry;
                         JDict [("@base", JStr "tortilla-flat#")]]);
     ("id", JStr "http://www.wikidata.org/entity/Q606720");
     ("_label", JStr "Tortilla Flat"); ("type", JStr "Book")]
  = ["@context"; "id"; "_label"; "type"].
Proof.
  exact (document_key_order
           [("_label", JStr "Tortilla Flat");
            ("@context", JList [JStr Document.CANONICAL_URI; book_entry]);
            ("id", JStr "http://www.wikidata.org/entity/Q606720");
            ("type", JStr "Book")]
           (Some "tortilla-flat") None None _
           ltac:(apply (bool_decide_unpack _); vm_compute; reflexivity)
           ltac:(vm_compute; reflexivity)).
Defined.

(** X2. The other fields of the document are those of the content: a key
    of the content keeps the value the content gives it, also ['id'], which
    then replaces the uri; ['id'] is the uri when a uri is supplied and the
    content has none; no other key is added. *)
Theorem document_fields
    (content : dict) (uri vocab : option string)
    (context : option (gmap string json)) (doc : dict) (k : string) :
  NoDup (PyDict.keys content) →
  Document.__init__ content uri context vocab = Ok doc →
  k ≠ "@context" →
  PyDict.get k doc
  = match PyDict.get k content with
    | Some v => Some v
    | None =>
        if String.eqb k "id"
        then match Document.supplied uri with
             | Some u => Some (JStr u)
             | None => None
             end
        else None
    end.
Proof.
  intros Hnd Hdoc Hk. apply init_document_inv in Hdoc as [c ->].
  assert (Hpop : PyDict.get k (PyDict.pop "@context" content)
                 = PyDict.get k content)
    by (apply get_pop_ne; congruence).
  destruct (PyDict.get k content) as [v|] eqn:Hget.
  - apply get_update_present; [apply NoDup_keys_pop|]; assumption.
  - rewrite get_update_absent by assumption. cbn [PyDict.get].
    destruct (String.eqb k "@context") eqn:E;
      [apply String.eqb_eq in E; contradiction|].
    destruct (Document.supplied uri); cbn [PyDict.get];
      destruct (String.eqb k "id"); reflexivity.
Qed.

Lemma document_fields_witness :
  PyDict.get "id"
    [("@context", JList [JStr Document.CANONICAL_URI; book_entry;
                         JDict [("@base", JStr "tortilla-flat#")]]);
     ("id", JStr "http://www.wikidata.org/entity/Q606720");
     ("_label", JStr "Tortilla Flat"); ("type", JStr "Book")]
  = Some (JStr "http://www.wikidata.org/entity/Q606720").
Proof.
  exact (document_fields
           [("_label", JStr "Tortilla Flat");
            ("@context", JList [JStr Document.CANONICAL_URI; book_entry]);
            ("id", JStr "http://www.wikidata.org/entity/Q606720");
            ("type", JStr "Book")]
           (Some "tortilla-flat") None None _ "id"
           ltac:(apply (bool_decide_unpack _); vm_compute; reflexivity)
           ltac:(vm_compute; reflexivity)
           ltac:(discriminate)).
Defined.

(** ** The base *)



(** ** A local context that is not a list *)

(** The characters of a string are truthy. *)
Lemma chars_truthy (s : string) :
  Forall (fun y => truthy y = true) (map JStr (chars s)).
Proof. induction s as [|c s IH]; simpl; constructor; auto. Qed.

(** The loop of lines 143-145 over truthy items does nothing. *)
Lemma remove_empty_truthy (snapshot : list json) (uc : json) :
  Forall (fun y => truthy y = true) snapshot →
  Document.remove_empty snapshot uc = Ok uc.
Proof.
  unfold Document.remove_empty.
  induction 1 as [|x rest Hx _ IH]; simpl; [reflexivity|].
  rewrite Hx. simpl. assumption.
Qed.

(** The loop of lines 143-145 on a dict: it returns the dict, or raises
    [AttributeError] at an empty key, a dict having no [remove]. *)
Lemma remove_empty_dict (snapshot : list json) (d : dict) :
  Document.remove_empty snapshot (JDict d) = Ok (JDict d) ∨
  Document.remove_empty snapshot (JDict d) = Raise AttributeError.
Proof.
  unfold Document.remove_empty.
  induction snapshot as [|x rest IH]; simpl; [auto|].
  destruct (truthy x); simpl; [assumption|auto].
Qed.

Lemma deduplicate_string keys (s : string) context remote :
  Document.remote_context keys context = Ok remote →
  Document._deduplicate_context keys (JStr s) context = Ok (JStr s).
Proof.
  intros Hr. unfold Document._deduplicate_context. rewrite Hr.
  change (Document.remove_empty (map JStr (chars s)) (JStr s) = Ok (JStr s)).
  apply remove_empty_truthy, chars_truthy.
Qed.

Lemma deduplicate_dict keys (d : dict) context remote :
  Document.remote_context keys context = Ok remote →
  Document._deduplicate_context keys (JDict d) context = Ok (JDict d) ∨
  Document._deduplicate_context keys (JDict d) context = Raise AttributeError.
Proof.
  intros Hr. unfold Document._deduplicate_context. rewrite Hr.
  apply (remove_empty_dict (map JStr (PyDict.keys d)) d).
Qed.

(** [__init__] raises what the de-duplication or the base block raises. *)
Lemma init_raises_early content uri context vocab (uc : json) keys e :
  PyDict.get "@context" content = Some uc →
  Document.remote_context_keys uc = Ok keys →
  (c0 ← Document._deduplicate_context keys uc context;
   Document.base_marker uri c0) = Raise e →
  Document.__init__ content uri context vocab = Raise e.
Proof.
  intros Huc Hkeys He. unfold Document.__init__. simpl.
  rewrite Huc. simpl. rewrite Hkeys. simpl.
  destruct (Document._deduplicate_context keys uc context) as [c0|e0];
    simpl in *; [|congruence].
  rewrite He. reflexivity.
Qed.

(** X4. With a uri supplied, a ['@context'] that is a string or a mapping
    rather than a list never gives a document.  [__init__] raises what the
    aggregation of the remote contexts raises, if it raises (the characters
    of the string, or the keys of the mapping, are looked up in the cache);
    otherwise it raises [AttributeError]: such a value has no last element
    to assign ['@base'] into and no [append] (and a mapping with an empty
    key has no [remove] either). *)
Theorem non_list_context_with_uri_raises
    (content : dict) (uc : json) (u : string) (vocab : option string)
    (context : option (gmap string json)) :
  u ≠ "" →
  PyDict.get "@context" content = Some uc →
  (∃ s, uc = JStr s) ∨ (∃ d, uc = JDict d) →
  ∃ keys,
    Document.remote_context_keys uc = Ok keys ∧
    Document.__init__ content (Some u) context vocab
    = Raise match Document.remote_context keys context with
            | Ok _ => AttributeError
            | Raise e => e
            end.
Proof.
  intros Hu Huc Hshape.
  assert (Hkeys : ∃ keys, Document.remote_context_keys uc = Ok keys)
    by (destruct Hshape as [[s ->]|[d ->]]; eexists; reflexivity).
  destruct Hkeys as [keys Hkeys]. exists keys. split; [assumption|].
  assert (Hsu : Document.supplied (Some u) = Some u).
  { simpl. destruct (String.eqb u "") eqn:E; [|reflexivity].
    apply String.eqb_eq in E. contradiction. }
  eapply init_raises_early; try eassumption.
  destruct (Document.remote_context keys context) as [remote|e] eqn:Hr.
  - unfold Document.base_marker. rewrite Hsu.
    destruct Hshape as [[s ->]|[d ->]].
    + rewrite (deduplicate_string _ _ _ _ Hr).
      unfold Document.with_base, set_last_item, py_last. simpl.
      destruct (last (chars s)); reflexivity.
    + destruct (deduplicate_dict keys d context remote Hr) as [Hd|Hd];
        rewrite Hd; reflexivity.
  - unfold Document._deduplicate_context. rewrite Hr. reflexivity.
Qed.

Lemma non_list_context_with_uri_raises_witness :
  ∃ keys,
    Document.remote_context_keys (JStr "ab") = Ok keys ∧
    Document.__init__
      [("@context", JStr "ab"); ("_label", JStr "Tortilla Flat")]
      (Some "docs/alpha")
      (Some {[ "a" := JDict [("error", JStr "not found")] ]}) None
    = Raise match Document.remote_context keys
                    (Some {[ "a" := JDict [("error", JStr "not found")] ]}) with
            | Ok _ => AttributeError
            | Raise e => e
            end.
Proof.
  apply (non_list_context_with_uri_raises
           [("@context", JStr "ab"); ("_label", JStr "Tortilla Flat")]
           (JStr "ab") "docs/alpha" None
           (Some {[ "a" := JDict [("error", JStr "not found")] ]})).
  - discriminate.
  - reflexivity.
  - left. eexists. reflexivity.
Defined.

(** * Further properties of [_deduplicate_context] *)

Lemma get_filter_key_out (p : string → bool) k (d : dict) :
  p k = false → PyDict.get k (List.filter (fun kv => p kv.1) d) = None.
Proof.
  intros Hp. induction d as [|[k' v'] d IH]; simpl; [reflexivity|].
  destruct (p k') eqn:Hk'; simpl; [|assumption].
  destruct (String.eqb k k') eqn:E; [|assumption].
  apply String.eqb_eq in E. congruence.
Qed.

(** X5. What is left of a mapping entry after lines 129-140: a term that
    the aggregated remote context defines is gone; so is a term whose value
    is a string that starts with [user:]; every other term keeps its
    definition, also a nested definition that mentions [user:]. *)
Theorem cleaned_entry_lookup (remote : gmap string json) (d : dict) :
  ∃ d',
    Document.clean_item remote (JDict d) = JDict d' ∧
    ∀ k,
      PyDict.get k d'
      = if bool_decide (is_Some (remote !! k)) then None
        else match PyDict.get k d with
             | Some (JStr s) =>
                 if String.prefix "user:" s then None else Some (JStr s)
             | o => o
             end.
Proof.
  eexists. split; [apply clean_item_dict|]. intros k.
  destruct (doomed remote d k) eqn:Hk.
  - rewrite (get_filter_key_out (fun k0 => negb (doomed remote d k0)))
      by (rewrite Hk; reflexivity).
    unfold doomed in Hk. destruct (bool_decide (is_Some (remote !! k)));
      [reflexivity|]. simpl in Hk.
    destruct (PyDict.get k d) as [[| | |s| |]|]; try discriminate.
    rewrite Hk. reflexivity.
  - rewrite (get_filter_key (fun k0 => negb (doomed remote d k0)))
      by (rewrite Hk; reflexivity).
    unfold doomed in Hk. apply orb_false_iff in Hk as [Hr Hu]. rewrite Hr.
    destruct (PyDict.get k d) as [[| | |s| |]|]; try reflexivity.
    rewrite Hu. reflexivity.
Qed.

Lemma clean_item_not_mapping remote (x : json) :
  is_mapping x = false → Document.clean_item remote x = x.
Proof. destruct x; simpl; congruence. Qed.

Lemma clean_item_is_mapping remote (x : json) :
  is_mapping (Document.clean_item remote x) = is_mapping x.
Proof. destruct x; reflexivity. Qed.

(** X6. De-duplication of a list is a stable filter on the entries that are
    not mappings: strings, numbers and nested lists come out as they went
    in and in the same order, but for the falsy ones. *)
Theorem other_entries_kept_in_order
    (keys : list string) (items : list json)
    (context : option (gmap string json)) (remote : gmap string json) :
  Document.remote_context keys context = Ok remote →
  ∃ out,
    Document._deduplicate_context keys (JList items) context = Ok (JList out) ∧
    List.filter (fun x => negb (is_mapping x)) out
    = List.filter (fun x => negb (is_mapping x) && truthy x) items.
Proof.
  intros Hr. eexists. rewrite (deduplicate_list _ _ _ remote) by assumption.
  split; [reflexivity|].
  induction items as [|x items IH]; simpl; [reflexivity|].
  destruct (is_mapping x) eqn:Hx.
  - simpl. destruct (truthy (Document.clean_item remote x)); simpl;
      [rewrite clean_item_is_mapping, Hx|]; exact IH.
  - rewrite clean_item_not_mapping by assumption. simpl.
    destruct (truthy x); simpl; [rewrite Hx; simpl; f_equal|]; exact IH.
Qed.

Lemma other_entries_kept_in_order_witness :
  ∃ out,
    Document._deduplicate_context [example_ctx]
      (JList [JStr example_ctx;
              JDict [("birthPlace", JStr "https://schema.org/birthPlace")];
              JStr ""; JNum 7; book_entry; JStr "https://schema.org/"])
      (Some example_cache) = Ok (JList out) ∧
    List.filter (fun x => negb (is_mapping x)) out
    = List.filter (fun x => negb (is_mapping x) && truthy x)
        [JStr example_ctx;
         JDict [("birthPlace", JStr "https://schema.org/birthPlace")];
         JStr ""; JNum 7; book_entry; JStr "https://schema.org/"].
Proof.
  apply (other_entries_kept_in_order [example_ctx] _ (Some example_cache)
           {[ "birthPlace" := JDict [("@id", JStr "https://schema.org/birthPlace")] ]}).
  vm_compute. reflexivity.
Defined.

(** X7. De-duplication never invents or alters a term: every mapping it
    returns comes from a mapping entry of the local context and holds only
    bindings of that entry; every other entry it returns is an entry of the
    local context; and it returns no more entries than it was given. *)
Theorem deduplicate_never_invents
    (keys : list string) (items : list json)
    (context : option (gmap string json)) (remote : gmap string json) :
  Document.remote_context keys context = Ok remote →
  ∃ out,
    Document._deduplicate_context keys (JList items) context = Ok (JList out) ∧
    (length out ≤ length items)%nat ∧
    ∀ x, In x out →
      match x with
      | JDict m => ∃ d, In (JDict d) items ∧ ∀ k v, In (k, v) m → In (k, v) d
      | _ => In x items
      end.
Proof.
  intros Hr. eexists. rewrite (deduplicate_list _ _ _ remote) by assumption.
  split; [reflexivity|]. split.
  - etransitivity; [apply List.filter_length_le|]. rewrite length_map. lia.
  - intros x Hx. apply filter_In in Hx as [Hx _].
    apply in_map_iff in Hx as (y & <- & Hy).
    destruct y as [| | | | |d]; try exact Hy.
    rewrite clean_item_dict. exists d. split; [assumption|].
    intros k v Hin. apply filter_In in Hin. tauto.
Qed.

Lemma deduplicate_never_invents_witness :
  ∃ out,
    Document._deduplicate_context []
      (JList [JStr Document.CANONICAL_URI;
              JDict [("nickname", JStr "user:nickname");
                     ("Book", JStr "https://schema.org/Book")]]) None
      = Ok (JList out) ∧
    (length out ≤ 2)%nat ∧
    ∀ x, In x out →
      match x with
      | JDict m =>
          ∃ d, In (JDict d)
                 [JStr Document.CANONICAL_URI;
                  JDict [("nickname", JStr "user:nickname");
                         ("Book", JStr "https://schema.org/Book")]] ∧
               ∀ k v, In (k, v) m → In (k, v) d
      | _ => In x [JStr Document.CANONICAL_URI;
                   JDict [("nickname", JStr "user:nickname");
                          ("Book", JStr "https://schema.org/Book")]]
      end.
Proof.
  apply (deduplicate_never_invents []
           [JStr Document.CANONICAL_URI;
            JDict [("nickname", JStr "user:nickname");
                   ("Book", JStr "https://schema.org/Book")]] None ∅).
  reflexivity.
Defined.

(** X8. Without a cache, a local context in which no term is a string that
    starts with [user:] comes back as it is, but for its falsy entries. *)
Theorem no_cache_no_user_terms (keys : list string) (items : list json) :
  (∀ d k s, In (JDict d) items → PyDict.get k d = Some (JStr s) →
            String.prefix "user:" s = false) →
  Document._deduplicate_context keys (JList items) None
  = Ok (JList (List.filter truthy items)).
Proof.
  intros Hfree. rewrite (deduplicate_list _ _ _ ∅) by reflexivity.
  do 2 f_equal. rewrite <- (map_id items) at 2. f_equal. apply map_ext_in.
  intros x Hx. destruct x as [| | | | |d]; try reflexivity.
  rewrite clean_item_dict. f_equal. apply filter_all_true.
  intros [k v] Hin. simpl. unfold doomed.
  rewrite lookup_empty, bool_decide_false by (intros [? ?]; discriminate).
  simpl. destruct (PyDict.get k d) as [[| | |s| |]|] eqn:Hget; try reflexivity.
  rewrite (Hfree d k s Hx Hget). reflexivity.
Qed.

Lemma no_cache_no_user_terms_witness :
  Document._deduplicate_context []
    (JList [JStr Document.CANONICAL_URI; JDict []; book_entry]) None
  = Ok (JList (List.filter truthy
                 [JStr Document.CANONICAL_URI; JDict []; book_entry])).
Proof.
  apply (no_cache_no_user_terms []
           [JStr Document.CANONICAL_URI; JDict []; book_entry]).
  intros d k s Hin Hget. simpl in Hin.
  destruct Hin as [Hin|[Hin|[Hin|[]]]]; try discriminate Hin;
    injection Hin as <-; simpl in Hget.
  - discriminate Hget.
  - destruct (String.eqb k "Book"); [|discriminate Hget].
    injection Hget as <-. reflexivity.
Defined.

(** ** The cache *)

Lemma remote_fold_agree (c c' : gmap string json) (keys : list string)
    (acc : gmap string json) :
  (∀ k, In k keys → c !! k = c' !! k) →
  foldM (Document.remote_step c) keys acc
  = foldM (Document.remote_step c') keys acc.
Proof.
  revert acc. induction keys as [|key keys IH]; intros acc Hagree;
    cbn [foldM]; [reflexivity|].
  assert (Hstep : Document.remote_step c acc key
                  = Document.remote_step c' acc key).
  { unfold Document.remote_step. rewrite (Hagree key) by (left; reflexivity).
    reflexivity. }
  rewrite Hstep. destruct (Document.remote_step c' acc key); simpl;
    [|reflexivity].
  apply IH. intros k Hk. apply Hagree. right. assumption.
Qed.

Lemma remote_fold_empty (keys : list string) (acc : gmap string json) :
  foldM (Document.remote_step ∅) keys acc = Ok acc.
Proof.
  revert acc. induction keys as [|key keys IH]; intros acc; cbn [foldM];
    [reflexivity|].
  assert (Hstep : Document.remote_step ∅ acc key = Ok acc)
    by (unfold Document.remote_step; rewrite lookup_empty; reflexivity).
  rewrite Hstep. apply IH.
Qed.

Lemma remote_context_fold (keys : list string) (c : gmap string json) :
  Document.remote_context keys (Some c)
  = foldM (Document.remote_step c) keys ∅.
Proof.
  rewrite remote_context_unfold.
  destruct (decide (c = ∅)) as [->|_]; [|reflexivity].
  symmetry. apply remote_fold_empty.
Qed.

(** X9. Only the cache entries that the document names are consulted: two
    caches that hold the same documents under the remote context keys give
    the same de-duplication, whatever else they hold or lack. *)
Theorem unreferenced_cache_entries_ignored
    (keys : list string) (user_context : json) (c c' : gmap string json) :
  (∀ k, In k keys → c !! k = c' !! k) →
  Document._deduplicate_context keys user_context (Some c)
  = Document._deduplicate_context keys user_context (Some c').
Proof.
  intros Hagree. unfold Document._deduplicate_context.
  rewrite !remote_context_fold, (remote_fold_agree c c') by assumption.
  reflexivity.
Qed.

Lemma unreferenced_cache_entries_ignored_witness :
  Document._deduplicate_context [example_ctx]
    (JList [JStr example_ctx;
            JDict [("birthPlace", JStr "https://schema.org/birthPlace");
                   ("name", JStr "https://schema.org/name")]])
    (Some example_cache)
  = Document._deduplicate_context [example_ctx]
      (JList [JStr example_ctx;
              JDict [("birthPlace", JStr "https://schema.org/birthPlace");
                     ("name", JStr "https://schema.org/name")]])
      (Some (<["https://schema.org/" :=
                 JDict [("@context", JDict [("name", JStr "https://schema.org/name")])]]>
             example_cache)).
Proof.
  apply (unreferenced_cache_entries_ignored [example_ctx] _ example_cache
           (<["https://schema.org/" :=
                JDict [("@context", JDict [("name", JStr "https://schema.org/name")])]]>
            example_cache)).
  intros k Hk. simpl in Hk. destruct Hk as [<-|[]]. vm_compute. reflexivity.
Defined.

Lemma foldM_raises_at {A B} (f : B → A → result B) (xs ys : list A) (x : A)
    (acc : B) :
  (∀ a, ∃ e, f a x = Raise e) →
  ∃ e, foldM f (xs ++ x :: ys) acc = Raise e.
Proof.
  intros Hx. rewrite foldM_app.
  destruct (foldM f xs acc) as [a|e]; simpl; [|eauto].
  destruct (Hx a) as [e He]. rewrite He. simpl. eauto.
Qed.

Lemma In_str_items (u : string) (items : list json) :
  In (JStr u) items → In u (str_items items).
Proof.
  induction items as [|x items IH]; simpl; [tauto|].
  intros [->|Hin]; [left; reflexivity|].
  destruct x; simpl; auto.
Qed.

(** X10. A cached document is used as it is: when the local context names
    a URL under which the cache holds a document without ['@context'] (or a
    value that is not a mapping at all), [__init__] raises. *)
Theorem cached_document_without_context_raises
    (content : dict) (items : list json) (uri vocab : option string)
    (c : gmap string json) (u : string) (doc : json) (e0 : exn) :
  PyDict.get "@context" content = Some (JList items) →
  In (JStr u) items →
  c !! u = Some doc →
  py_getitem doc "@context" = Raise e0 →
  ∃ e, Document.__init__ content uri (Some c) vocab = Raise e.
Proof.
  intros Huc Hin Hc Hdoc.
  assert (Hr : ∃ e, Document.remote_context (str_items items) (Some c)
                    = Raise e).
  { rewrite remote_context_fold.
    apply In_str_items, in_split in Hin as (ks1 & ks2 & ->).
    apply foldM_raises_at. intros a. exists e0.
    unfold Document.remote_step. rewrite Hc. simpl. rewrite Hdoc. reflexivity. }
  destruct Hr as [e Hr]. exists e.
  eapply init_raises_early; [eassumption|apply remote_context_keys_list|].
  unfold Document._deduplicate_context. rewrite Hr. reflexivity.
Qed.

Lemma cached_document_without_context_raises_witness :
  ∃ e,
    Document.__init__
      [("@context", JList [JStr Document.CANONICAL_URI; JStr example_ctx]);
       ("_label", JStr "Alfred Hitchcock")]
      (Some "alfred-hitchcock")
      (Some {[ example_ctx := JDict [("error", JStr "not found")] ]}) None
    = Raise e.
Proof.
  apply (cached_document_without_context_raises
           [("@context", JList [JStr Document.CANONICAL_URI; JStr example_ctx]);
            ("_label", JStr "Alfred Hitchcock")]
           [JStr Document.CANONICAL_URI; JStr example_ctx]
           (Some "alfred-hitchcock") None
           {[ example_ctx := JDict [("error", JStr "not found")] ]}
           example_ctx (JDict [("error", JStr "not found")]) KeyError).
  - reflexivity.
  - simpl. right. left. reflexivity.
  - vm_compute. reflexivity.
  - reflexivity.
Defined.

(** * Further properties of [framed] *)

Section FramedFacts.

Variable ontology : json.
Variable jsonld_frame : Framing.obj → Framing.obj → Framing.M Framing.obj.
Variable dump : gmap positive (list json) → Framing.obj → string.

(** The steps of [framed] up to the call of the library. *)
Lemma framed_until_library (h : gmap positive (list json)) (doc : Framing.obj)
    (x body id : json) (rest : list json) :
  h !! Framing.obj_context doc = Some (x :: rest) →
  py_getitem ontology "@context" = Ok body →
  PyDict.get "id" (Framing.obj_fields doc) = Some id →
  Framing.framed ontology jsonld_frame dump doc h
  = Framing.seq
      (jsonld_frame doc
         {| Framing.obj_context := Framing.obj_context doc;
            Framing.obj_fields := [("@embed", JStr "@always"); ("@id", id)] |})
      (fun framed =>
         Framing.seq
           (Framing.list_setitem (Framing.obj_context framed) 0
              (JStr Document.CANONICAL_URI))
           (fun _ h' => (h', Ok (dump h' framed))))
      (<[Framing.obj_context doc := body :: rest]> h).
Proof.
  intros Hctx Hont Hid.
  unfold Framing.framed, Framing.seq at 1 2 3, Framing.pure.
  rewrite Hont. unfold Framing.list_setitem at 1. rewrite Hctx. simpl.
  rewrite Hid. reflexivity.
Qed.

End FramedFacts.

(** X11. [framed] on a document without ['id'] raises [KeyError], and by
    then it has written the ontology context over the document's first
    context element (line 161 comes before line 165): the library is not
    called and nothing is put back. *)
Theorem framed_without_id
    (ontology : json)
    (jsonld_frame : Framing.obj → Framing.obj → Framing.M Framing.obj)
    (dump : gmap positive (list json) → Framing.obj → string)
    (h : gmap positive (list json)) (doc : Framing.obj)
    (x body : json) (rest : list json) :
  h !! Framing.obj_context doc = Some (x :: rest) →
  py_getitem ontology "@context" = Ok body →
  PyDict.get "id" (Framing.obj_fields doc) = None →
  Framing.framed ontology jsonld_frame dump doc h
  = (<[Framing.obj_context doc := body :: rest]> h, Raise KeyError) ∧
  Framing.view (<[Framing.obj_context doc := body :: rest]> h) doc
  = Some (("@context", JList (body :: rest)) :: Framing.obj_fields doc).
Proof.
  intros Hctx Hont Hid. split.
  - unfold Framing.framed, Framing.seq, Framing.pure.
    rewrite Hont. unfold Framing.list_setitem at 1. rewrite Hctx. simpl.
    rewrite Hid. reflexivity.
  - unfold Framing.view. rewrite lookup_insert_eq. reflexivity.
Qed.

Lemma framed_without_id_witness :
  Framing.framed
    (JDict [("@context",
             JDict [("_label", JStr "http://www.w3.org/2000/01/rdf-schema#label")])])
    Framing.copying_frame (fun _ _ => "")
    {| Framing.obj_context := 1%positive;
       Framing.obj_fields := [("_label", JStr "Tortilla Flat")] |}
    {[ 1%positive := [JStr Document.CANONICAL_URI; book_entry] ]}
  = (<[1%positive :=
         [JDict [("_label", JStr "http://www.w3.org/2000/01/rdf-schema#label")];
          book_entry]]>
       {[ 1%positive := [JStr Document.CANONICAL_URI; book_entry] ]},
     Raise KeyError) ∧
  Framing.view
    (<[1%positive :=
         [JDict [("_label", JStr "http://www.w3.org/2000/01/rdf-schema#label")];
          book_entry]]>
       {[ 1%positive := [JStr Document.CANONICAL_URI; book_entry] ]})
    {| Framing.obj_context := 1%positive;
       Framing.obj_fields := [("_label", JStr "Tortilla Flat")] |}
  = Some (("@context",
           JList [JDict [("_label", JStr "http://www.w3.org/2000/01/rdf-schema#label")];
                  book_entry])
          :: [("_label", JStr "Tortilla Flat")]).
Proof.
  apply (framed_without_id _ Framing.copying_frame (fun _ _ => "")
           {[ 1%positive := [JStr Document.CANONICAL_URI; book_entry] ]}
           {| Framing.obj_context := 1%positive;
              Framing.obj_fields := [("_label", JStr "Tortilla Flat")] |}
           (JStr Document.CANONICAL_URI)
           (JDict [("_label", JStr "http://www.w3.org/2000/01/rdf-schema#label")])
           [book_entry]).
  - reflexivity.
  - reflexivity.
  - reflexivity.
Defined.

(** X12. When the library raises, [framed] raises the same exception and
    puts nothing back: if the library left the document's context array
    alone, its first element is still the ontology context. *)
Theorem framed_library_failure
    (ontology : json)
    (jsonld_frame : Framing.obj → Framing.obj → Framing.M Framing.obj)
    (dump : gmap positive (list json) → Framing.obj → string)
    (h h2 : gmap positive (list json)) (doc : Framing.obj)
    (x body id : json) (rest : list json) (e : exn) :
  h !! Framing.obj_context doc = Some (x :: rest) →
  py_getitem ontology "@context" = Ok body →
  PyDict.get "id" (Framing.obj_fields doc) = Some id →
  jsonld_frame doc
    {| Framing.obj_context := Framing.obj_context doc;
       Framing.obj_fields := [("@embed", JStr "@always"); ("@id", id)] |}
    (<[Framing.obj_context doc := body :: rest]> h) = (h2, Raise e) →
  h2 !! Framing.obj_context doc = Some (body :: rest) →
  Framing.framed ontology jsonld_frame dump doc h = (h2, Raise e) ∧
  Framing.view h2 doc
  = Some (("@context", JList (body :: rest)) :: Framing.obj_fields doc).
Proof.
  intros Hctx Hont Hid Hlib Hkept. split.
  - rewrite (framed_until_library _ _ _ _ _ x body id rest) by assumption.
    unfold Framing.seq at 1. rewrite Hlib. reflexivity.
  - unfold Framing.view. rewrite Hkept. reflexivity.
Qed.

Lemma framed_library_failure_witness :
  Framing.framed
    (JDict [("@context",
             JDict [("_label", JStr "http://www.w3.org/2000/01/rdf-schema#label")])])
    failing_frame (fun _ _ => "")
    {| Framing.obj_context := 1%positive;
       Framing.obj_fields := [("id", JStr "tortilla-flat")] |}
    {[ 1%positive := [JStr Document.CANONICAL_URI] ]}
  = (<[1%positive :=
         [JDict [("_label", JStr "http://www.w3.org/2000/01/rdf-schema#label")]]]>
       {[ 1%positive := [JStr Document.CANONICAL_URI] ]},
     Raise ValueError) ∧
  Framing.view
    (<[1%positive :=
         [JDict [("_label", JStr "http://www.w3.org/2000/01/rdf-schema#label")]]]>
       {[ 1%positive := [JStr Document.CANONICAL_URI] ]})
    {| Framing.obj_context := 1%positive;
       Framing.obj_fields := [("id", JStr "tortilla-flat")] |}
  = Some (("@context",
           JList [JDict [("_label", JStr "http://www.w3.org/2000/01/rdf-schema#label")]])
          :: [("id", JStr "tortilla-flat")]).
Proof.
  apply (framed_library_failure _ failing_frame (fun _ _ => "")
           {[ 1%positive := [JStr Document.CANONICAL_URI] ]} _
           {| Framing.obj_context := 1%positive;
              Framing.obj_fields := [("id", JStr "tortilla-flat")] |}
           (JStr Document.CANONICAL_URI)
           (JDict [("_label", JStr "http://www.w3.org/2000/01/rdf-schema#label")])
           (JStr "tortilla-flat") [] ValueError).
  - reflexivity.
  - reflexivity.
  - reflexivity.
  - reflexivity.
  - vm_compute. reflexivity.
Defined.

(** X13. The document comes out of [framed] as it went in when the write
    of line 168 lands in the document's own array: if the library
    returns the array it was given in the frame, untouched, and the
    document's first context element was the ontology URI, the document is
    unchanged after [framed]. *)
Theorem framed_restores_shared_array
    (ontology : json)
    (jsonld_frame : Framing.obj → Framing.obj → Framing.M Framing.obj)
    (dump : gmap positive (list json) → Framing.obj → string)
    (h h2 : gmap positive (list json)) (doc fr : Framing.obj)
    (body id : json) (rest : list json) :
  h !! Framing.obj_context doc = Some (JStr Document.CANONICAL_URI :: rest) →
  py_getitem ontology "@context" = Ok body →
  PyDict.get "id" (Framing.obj_fields doc) = Some id →
  jsonld_frame doc
    {| Framing.obj_context := Framing.obj_context doc;
       Framing.obj_fields := [("@embed", JStr "@always"); ("@id", id)] |}
    (<[Framing.obj_context doc := body :: rest]> h) = (h2, Ok fr) →
  Framing.obj_context fr = Framing.obj_context doc →
  h2 !! Framing.obj_context doc = Some (body :: rest) →
  ∃ h3 s,
    Framing.framed ontology jsonld_frame dump doc h = (h3, Ok s) ∧
    Framing.view h3 doc = Framing.view h doc.
Proof.
  intros Hctx Hont Hid Hlib Hsame Hkept.
  rewrite (framed_until_library _ _ _ _ _ (JStr Document.CANONICAL_URI)
             body id rest) by assumption.
  unfold Framing.seq at 1. rewrite Hlib.
  unfold Framing.seq, Framing.list_setitem. rewrite Hsame, Hkept. simpl.
  eexists. eexists. split; [reflexivity|].
  unfold Framing.view. rewrite lookup_insert_eq, Hctx. reflexivity.
Qed.

Lemma framed_restores_shared_array_witness :
  ∃ h3 s,
    Framing.framed
      (JDict [("@context",
               JDict [("_label", JStr "http://www.w3.org/2000/01/rdf-schema#label")])])
      sharing_frame (fun _ _ => "")
      {| Framing.obj_context := 1%positive;
         Framing.obj_fields := [("id", JStr "tortilla-flat")] |}
      {[ 1%positive := [JStr Document.CANONICAL_URI; book_entry] ]} = (h3, Ok s) ∧
    Framing.view h3
      {| Framing.obj_context := 1%positive;
         Framing.obj_fields := [("id", JStr "tortilla-flat")] |}
    = Framing.view {[ 1%positive := [JStr Document.CANONICAL_URI; book_entry] ]}
        {| Framing.obj_context := 1%positive;
           Framing.obj_fields := [("id", JStr "tortilla-flat")] |}.
Proof.
  eapply (framed_restores_shared_array _ sharing_frame (fun _ _ => "")
            {[ 1%positive := [JStr Document.CANONICAL_URI; book_entry] ]} _
            {| Framing.obj_context := 1%positive;
               Framing.obj_fields := [("id", JStr "tortilla-flat")] |} _
            (JDict [("_label", JStr "http://www.w3.org/2000/01/rdf-schema#label")])
            (JStr "tortilla-flat") [book_entry]).
  - reflexivity.
  - reflexivity.
  - reflexivity.
  - reflexivity.
  - reflexivity.
  - vm_compute. reflexivity.
Defined.

(** * Properties of the command line *)

Section CliFacts.

Variable read_file : string → result string.
Variable location : string → string.
Variable front_matter_context : string → result (option json).
Variable response : Type.
Variable session_get : list string → string → result response.
Variable response_json : response → result json.
Variable transform : string → result dict.
Variable render : string → dict → result string.

#[local] Abbreviation emit :=
  (Cli.emit transform render).
#[local] Abbreviation process :=
  (Cli.process read_file location front_matter_context response session_get
     response_json transform render).
#[local] Abbreviation main :=
  (Cli.main read_file location front_matter_context response session_get
     response_json transform render).

(** Printing one document leaves the cache and the requests alone. *)
Lemma emit_inv format markdown uri (s s' : Cli.state) :
  emit format markdown uri s = Ok s' →
  Cli.cached_contexts s' = Cli.cached_contexts s ∧
  Cli.requests s' = Cli.requests s ∧
  ∃ out, Cli.printed s' = Cli.printed s ++ [out].
Proof.
  unfold Cli.emit.
  destruct (transform markdown) as [content|]; simpl; [|discriminate].
  destruct (Document.__init__ _ _ _ _) as [document|]; simpl; [|discriminate].
  destruct (render format document) as [out|]; simpl; [|discriminate].
  intros [= <-]. simpl. eauto.
Qed.

(** One file: no request and one document; or one request for a URL that
    is not cached, which fails and skips the file, or succeeds, is cached
    and is followed by one document. *)
Lemma process_inv base format (s s' : Cli.state) (path : string) :
  process base format s path = Ok s' →
  (Cli.cached_contexts s' = Cli.cached_contexts s ∧
   Cli.requests s' = Cli.requests s ∧
   ∃ out, Cli.printed s' = Cli.printed s ++ [out]) ∨
  (∃ url,
     Cli.cached_contexts s !! url = None ∧
     Cli.requests s' = Cli.requests s ++ [url] ∧
     ((Cli.cached_contexts s' = Cli.cached_contexts s ∧
       Cli.printed s' = Cli.printed s ∧
       ∃ e, session_get (Cli.requests s) url = Raise e) ∨
      (∃ r ctx out,
         session_get (Cli.requests s) url = Ok r ∧
         Cli.cached_contexts s' = <[url := ctx]> (Cli.cached_contexts s) ∧
         Cli.printed s' = Cli.printed s ++ [out]))).
Proof.
  unfold Cli.process.
  destruct (read_file path) as [markdown|]; simpl; [|discriminate].
  destruct (front_matter_context markdown) as [fmc|]; simpl; [|discriminate].
  assert (Hemit : ∀ uri,
    emit format markdown uri s = Ok s' →
    Cli.cached_contexts s' = Cli.cached_contexts s ∧
    Cli.requests s' = Cli.requests s ∧
    ∃ out, Cli.printed s' = Cli.printed s ++ [out])
    by (intros uri; apply emit_inv).
  destruct fmc as [[| | |url| |]|]; try (intros H; left; eapply Hemit; exact H).
  destruct (decide (is_Some (Cli.cached_contexts s !! url))) as [Hin|Hout];
    [intros H; left; eapply Hemit; exact H|].
  assert (Hnone : Cli.cached_contexts s !! url = None)
    by (destruct (Cli.cached_contexts s !! url); [exfalso; eauto|reflexivity]).
  intros H. right. exists url. split; [assumption|].
  destruct (session_get (Cli.requests s) url) as [r|e].
  - destruct (response_json r) as [ctx|]; simpl in *; [|discriminate].
    apply emit_inv in H as (Hc & Hr & out & Hp). simpl in *.
    split; [assumption|]. right. exists r, ctx, out. auto.
  - injection H as <-. simpl. split; [reflexivity|]. left. eauto.
Qed.

(** The loop from any state: what it requests, what it caches and what it
    prints. *)
Lemma loop_inv base format (files : list string) (s s' : Cli.state) :
  foldM (process base format) files s = Ok s' →
  ∃ new,
    Cli.requests s' = Cli.requests s ++ new ∧
    (∀ u, is_Some (Cli.cached_contexts s !! u) → ¬ In u new) ∧
    (∀ u doc, Cli.cached_contexts s !! u = Some doc →
              Cli.cached_contexts s' !! u = Some doc) ∧
    (∀ u, is_Some (Cli.cached_contexts s' !! u) →
          is_Some (Cli.cached_contexts s !! u) ∨ In u new) ∧
    (length (Cli.printed s') ≤ length (Cli.printed s) + length files)%nat ∧
    ((∀ log url, ∃ r, session_get log url = Ok r) →
     length (Cli.printed s') = (length (Cli.printed s) + length files)%nat).
Proof.
  revert s. induction files as [|path files IH]; intros s; simpl.
  - intros [= <-]. exists []. rewrite app_nil_r.
    repeat split; auto; lia.
  - destruct (process base format s path) as [s1|] eqn:Hstep; simpl;
      [|discriminate].
    intros Hrest. apply IH in Hrest
      as (new & Hreq & Hnever & Hkeep & Hfrom & Hle & Heq).
    apply process_inv in Hstep
      as [(Hc & Hr & out & Hp)|(url & Hnone & Hr & Hcases)].
    + exists new. rewrite Hc, Hr, Hp, length_app in *. simpl in *.
      repeat split; auto; try lia. intros Hall. specialize (Heq Hall). lia.
    + exists (url :: new). rewrite Hreq, Hr, <- app_assoc. simpl.
      split; [reflexivity|].
      destruct Hcases as [(Hc & Hp & e & He)|(r & ctx & out & Hget & Hc & Hp)].
      * rewrite Hc, Hp in *. repeat split; auto; try lia.
        -- intros u [v Hu] [<-|Hin]; [congruence|].
           eapply Hnever; eauto.
        -- intros u Hu. destruct (Hfrom u Hu); auto.
        -- intros Hall. destruct (Hall (Cli.requests s) url) as [r Hr'].
           congruence.
      * rewrite Hc, Hp, length_app in *. simpl in *.
        repeat split; try lia.
        -- intros u [v Hu] [<-|Hin]; [congruence|].
           eapply Hnever; [|exact Hin].
           rewrite lookup_insert_ne by congruence. eauto.
        -- intros u doc Hu. apply Hkeep.
           rewrite lookup_insert_ne by congruence. assumption.
        -- intros u Hu. destruct (Hfrom u Hu) as [Hs|Hin]; [|auto].
           destruct (decide (url = u)) as [->|Hne]; [auto|].
           rewrite lookup_insert_ne in Hs by assumption. auto.
        -- intros Hall. specialize (Heq Hall). lia.
Qed.

Lemma main_app base format (files1 files2 : list string) (s' : Cli.state) :
  main (files1 ++ files2) base format = Ok s' →
  ∃ s1, main files1 base format = Ok s1 ∧
        foldM (process base format) files2 s1 = Ok s'.
Proof.
  unfold Cli.main. rewrite foldM_app.
  destruct (foldM _ files1 _) as [s1|]; simpl; [eauto|discriminate].
Qed.

(** X14. A remote context is fetched once: a URL that is in the cache after
    some of the files is not requested again for any of the files that
    follow. *)
Theorem cached_url_never_requested
    (base : option string) (format : string)
    (files1 files2 : list string) (s' : Cli.state) :
  main (files1 ++ files2) base format = Ok s' →
  ∃ s1 new,
    main files1 base format = Ok s1 ∧
    Cli.requests s' = Cli.requests s1 ++ new ∧
    ∀ u, is_Some (Cli.cached_contexts s1 !! u) → ¬ In u new.
Proof.
  intros Hmain. apply main_app in Hmain as (s1 & H1 & H2).
  apply loop_inv in H2 as (new & Hreq & Hnever & _).
  exists s1, new. auto.
Qed.

(** X15. The cache only grows: a document cached after some of the files is
    still cached, unchanged, at the end of the run, and so is handed to
    every later [Document]. *)
Theorem cached_contexts_persist
    (base : option string) (format : string)
    (files1 files2 : list string) (s' : Cli.state) :
  main (files1 ++ files2) base format = Ok s' →
  ∃ s1,
    main files1 base format = Ok s1 ∧
    ∀ u doc, Cli.cached_contexts s1 !! u = Some doc →
             Cli.cached_contexts s' !! u = Some doc.
Proof.
  intros Hmain. apply main_app in Hmain as (s1 & H1 & H2).
  apply loop_inv in H2 as (new & _ & _ & Hkeep & _).
  exists s1. auto.
Qed.

(** X16. The cache holds only what the session returned: every URL cached
    at the end of the run was requested during the run. *)
Theorem cached_urls_were_requested
    (base : option string) (format : string)
    (files : list string) (s' : Cli.state) (u : string) :
  main files base format = Ok s' →
  is_Some (Cli.cached_contexts s' !! u) →
  In u (Cli.requests s').
Proof.
  intros Hmain Hu. apply loop_inv in Hmain as (new & Hreq & _ & _ & Hfrom & _).
  simpl in *. rewrite Hreq.
  destruct (Hfrom u Hu) as [[v Hv]|Hin]; [|assumption].
  rewrite lookup_empty in Hv. discriminate.
Qed.

(** The loop from any state: each file prints one document, but for the
    files whose request failed. *)
Lemma loop_count base format (files : list string) (s s' : Cli.state) :
  foldM (process base format) files s = Ok s' →
  ∃ new,
    Cli.requests s' = Cli.requests s ++ new ∧
    (length (Cli.printed s') + failed_requests session_get (Cli.requests s) new
     = length (Cli.printed s) + length files)%nat.
Proof.
  revert s. induction files as [|path files IH]; intros s; simpl.
  - intros [= <-]. exists []. rewrite app_nil_r. simpl. split; [reflexivity|lia].
  - destruct (process base format s path) as [s1|] eqn:Hstep; simpl;
      [|discriminate].
    intros Hrest. apply IH in Hrest as (new & Hreq & Hcount).
    apply process_inv in Hstep
      as [(Hc & Hr & out & Hp)|(url & Hnone & Hr & Hcases)].
    + exists new. rewrite Hr, Hp, length_app in *. simpl in *.
      split; [assumption|lia].
    + exists (url :: new). rewrite Hreq, Hr, <- app_assoc. simpl.
      split; [reflexivity|]. rewrite Hr in Hcount.
      destruct Hcases as [(Hc & Hp & e & He)|(r & ctx & out & Hget & Hc & Hp)].
      * rewrite He, Hp in *. lia.
      * rewrite Hget, Hp, length_app in *. simpl in *. lia.
Qed.

(** X17. In a run that ends, each file prints exactly one document, unless
    the request for its remote context failed, in which case it prints
    none and the run goes on; so the documents printed and the requests
    that failed add up to the number of files. *)
Theorem one_document_per_file
    (base : option string) (format : string)
    (files1 files2 : list string) (path : string) (s' : Cli.state) :
  main (files1 ++ path :: files2) base format = Ok s' →
  ∃ s1 s2,
    main files1 base format = Ok s1 ∧
    process base format s1 path = Ok s2 ∧
    ((∃ out, Cli.printed s2 = Cli.printed s1 ++ [out]) ∨
     (Cli.printed s2 = Cli.printed s1 ∧
      ∃ url e, Cli.requests s2 = Cli.requests s1 ++ [url] ∧
               session_get (Cli.requests s1) url = Raise e)) ∧
    (length (Cli.printed s') + failed_requests session_get [] (Cli.requests s')
     = length (files1 ++ path :: files2))%nat.
Proof.
  intros Hmain.
  pose proof Hmain as Hcount.
  apply loop_count in Hcount as (new & Hreq & Hcount). simpl in Hreq, Hcount.
  apply main_app in Hmain as (s1 & H1 & H2). simpl in H2.
  destruct (process base format s1 path) as [s2|] eqn:Hstep; simpl in H2;
    [|discriminate].
  exists s1, s2. split; [assumption|]. split; [exact Hstep|]. split.
  - apply process_inv in Hstep
      as [(_ & _ & out & Hp)|(url & _ & Hr & [(_ & Hp & e & He)|(r & ctx & out & _ & _ & Hp)])];
      eauto 10.
  - rewrite Hreq. exact Hcount.
Qed.

End CliFacts.

(** ** A run over three files, two of which declare the same remote
    context *)

Lemma cached_url_never_requested_witness :
  ∃ s',
    World.main ["remote.md"; "a.md"; "remote.md"] = Ok s' ∧
    ∃ s1 new,
      World.main ["remote.md"] = Ok s1 ∧
      Cli.requests s' = Cli.requests s1 ++ new ∧
      ∀ u, is_Some (Cli.cached_contexts s1 !! u) → ¬ In u new.
Proof.
  eexists. split; [vm_compute; reflexivity|]. unfold World.main.
  apply (cached_url_never_requested World.read_file World.location
           World.front_matter_context json World.session_get
           World.response_json World.transform World.render
           None "json" ["remote.md"] ["a.md"; "remote.md"]).
  vm_compute. reflexivity.
Defined.

Lemma cached_contexts_persist_witness :
  ∃ s',
    World.main ["remote.md"; "a.md"; "remote.md"] = Ok s' ∧
    ∃ s1,
      World.main ["remote.md"] = Ok s1 ∧
      ∀ u doc, Cli.cached_contexts s1 !! u = Some doc →
               Cli.cached_contexts s' !! u = Some doc.
Proof.
  eexists. split; [vm_compute; reflexivity|]. unfold World.main.
  apply (cached_contexts_persist World.read_file World.location
           World.front_matter_context json World.session_get
           World.response_json World.transform World.render
           None "json" ["remote.md"] ["a.md"; "remote.md"]).
  vm_compute. reflexivity.
Defined.

Lemma cached_urls_were_requested_witness :
  ∃ s',
    World.main ["remote.md"; "a.md"; "remote.md"] = Ok s' ∧
    In "https://example.org/ctx" (Cli.requests s').
Proof.
  eexists. split; [vm_compute; reflexivity|].
  apply (cached_urls_were_requested World.read_file World.location
           World.front_matter_context json World.session_get
           World.response_json World.transform World.render
           None "json" ["remote.md"; "a.md"; "remote.md"]).
  - vm_compute. reflexivity.
  - vm_compute. eexists. reflexivity.
Defined.

Lemma one_document_per_file_witness :
  ∃ s',
    World.flaky_main ([] ++ "remote.md" :: ["a.md"; "remote.md"]) = Ok s' ∧
    ∃ s1 s2,
      World.flaky_main [] = Ok s1 ∧
      Cli.process World.read_file World.location World.front_matter_context
        json World.flaky_get World.response_json World.transform World.render
        None "json" s1 "remote.md" = Ok s2 ∧
      ((∃ out, Cli.printed s2 = Cli.printed s1 ++ [out]) ∨
       (Cli.printed s2 = Cli.printed s1 ∧
        ∃ url e, Cli.requests s2 = Cli.requests s1 ++ [url] ∧
                 World.flaky_get (Cli.requests s1) url = Raise e)) ∧
      (length (Cli.printed s') +
       failed_requests World.flaky_get [] (Cli.requests s')
       = length ([] ++ "remote.md" :: ["a.md"; "remote.md"]))%nat.
Proof.
  eexists. split; [vm_compute; reflexivity|]. unfold World.flaky_main.
  apply (one_document_per_file World.read_file World.location
           World.front_matter_context json World.flaky_get
           World.response_json World.transform World.render
           None "json" [] ["a.md"; "remote.md"] "remote.md").
  vm_compute. reflexivity.
Defined.
